(** * Session registry and status reporter of the OMAR backend (src/app.py)

    A shallow embedding of the Flask application module [app.py]: the two
    module-level dictionaries, the handlers [ping], [status], [crear_sesion],
    the three error handlers and the two logging hooks, followed by the
    properties of the session registry and of the status snapshot. *)

From Stdlib Require Import ZArith String Ascii List Bool Lia.
From Stdlib Require Import Floats.SpecFloat.
From stdpp Require Import base gmap strings list fin_maps pretty.

Set Warnings "-register-all".

Local Open Scope string_scope.
Local Open Scope Z_scope.

(** ** Python values *)

(** The values that flow through the module: what [json.loads] can produce
    (None, bool, int, float, str, list, dict) and [datetime.timedelta], which
    only a configuration entry can hold.  A dict literal keeps its items in
    order; [dict_lookup] reads the first item with the key. *)
Inductive pyval : Type :=
| PNone
| PBool (b : bool)
| PInt (n : Z)
| PFloat (f : spec_float)
| PStr (s : string)
| PList (items : list pyval)
| PDict (items : list (string * pyval))
| PTimedelta (microseconds : Z).

Abbreviation pydict := (list (string * pyval)).

(** [bool(v)], as used by [if not data] and by [bool(app.config.get(...))]. *)
Definition truthy (v : pyval) : bool :=
  match v with
  | PNone => false
  | PBool b => b
  | PInt n => negb (n =? 0)
  | PFloat (S754_zero _) => false
  | PFloat _ => true
  | PStr s => negb (String.eqb s "")
  | PList l => match l with [] => false | _ => true end
  | PDict d => match d with [] => false | _ => true end
  | PTimedelta us => negb (us =? 0)
  end.

(** [type(v).__name__], as it appears in an AttributeError message. *)
Definition type_name (v : pyval) : string :=
  match v with
  | PNone => "NoneType"
  | PBool _ => "bool"
  | PInt _ => "int"
  | PFloat _ => "float"
  | PStr _ => "str"
  | PList _ => "list"
  | PDict _ => "dict"
  | PTimedelta _ => "datetime.timedelta"
  end.

Fixpoint dict_lookup (d : pydict) (k : string) : option pyval :=
  match d with
  | [] => None
  | (k', v) :: d' => if String.eqb k' k then Some v else dict_lookup d' k
  end.

(** [d.get(k, default)] *)
Definition dict_get (d : pydict) (k : string) (default : pyval) : pyval :=
  match dict_lookup d k with
  | Some v => v
  | None => default
  end.

(** Whether the JSON provider behind [jsonify] can serialise the value: it
    has no encoder for a timedelta, at any depth. *)
Fixpoint serializable (v : pyval) : bool :=
  match v with
  | PTimedelta _ => false
  | PList l => forallb serializable l
  | PDict d => forallb (fun kv => serializable (snd kv)) d
  | _ => true
  end.

(** The float that represents an integer (round to nearest, binary64). *)
Definition float_of_Z (n : Z) : spec_float := binary_normalize 53 1024 n 0 false.

(** ** Exceptions *)

(** The subclasses of [Exception] that can arise in the module:
    AttributeError and TypeError from the handlers' own expressions, and
    werkzeug's HTTPException (BadRequest is code 400, UnsupportedMediaType
    415), which [request.get_json()] raises. *)
Inductive exn : Type :=
| AttributeError (msg : string)
| TypeError (msg : string)
| HTTPException (code : Z) (name description : string).

(** [str(e)] *)
Definition str_exn (e : exn) : string :=
  match e with
  | AttributeError m => m
  | TypeError m => m
  | HTTPException c n d => pretty c +:+ " " +:+ n +:+ ": " +:+ d
  end.

Inductive result (A : Type) : Type :=
| Ok (a : A)
| Raise (e : exn).
Arguments Ok {A} a.
Arguments Raise {A} e.

(** ** The process state *)

Inductive level : Type := INFO | WARNING | ERROR.

(** A formatted log line: the literal text of the f-string and the values
    interpolated into it, left unformatted. *)
Inductive piece : Type :=
| Txt (s : string)
| Val (v : pyval).

Record log_record : Type := LogRecord { lvl : level; msg : list piece }.

(** The dict literal [session_data] of [crear_sesion]: its keys are fixed. *)
Record session : Type := Session {
  id : string;
  user_id : pyval;
  device_type : pyval;
  app_version : pyval;
  created_at : string;
  last_activity : string;
  interaction_count : Z
}.

(** The module-level dictionaries, the log, and the two sources the module
    reads from outside: the clock ([clock i] is the ISO-8601 text of the i-th
    reading of [datetime.now()], counted by [ticks]) and the random bytes
    ([urandom i] is the i-th draw of 16 bytes as an integer, counted by
    [draws]). *)
Record world : Type := World {
  active_sessions : gmap string session;
  pending_validations : gmap string pyval;
  log : list log_record;
  clock : nat -> string;
  ticks : nat;
  urandom : nat -> Z;
  draws : nat
}.

(** [app.config] and [env] after the module is loaded.  [loaded] is the
    mapping that [app.config.from_object(config[env])] leaves behind (the
    config module is not part of this file); line 28 then sets the upload
    limit. *)
Record application : Type := Application {
  env : string;
  config : gmap string pyval
}.

Definition create_app (flask_env : option string) (loaded : gmap string pyval)
  : application :=
  {| env := default "development" flask_env;
     config := <["MAX_CONTENT_LENGTH" := PInt (16 * 1024 * 1024)]> loaded |}.

(** [request]: what the handlers read from it.  [get_json] is the outcome of
    [request.get_json()]: the value parsed from the body ([PNone] for the
    JSON text null), or the exception it raises: a BadRequest when the body
    is empty or is not valid JSON, an UnsupportedMediaType when the request
    does not carry a JSON content type. *)
Record request : Type := Request {
  method : string;
  url : string;
  remote_addr : string;
  get_json : result pyval
}.

(** [jsonify(body), status_code] *)
Record response : Type := Response {
  body : pydict;
  status_code : Z
}.

(** ** Running code: state and exceptions *)

Module Py.

Definition M (A : Type) : Type := world -> result A * world.

Definition ret {A} (a : A) : M A := fun w => (Ok a, w).

Definition raise {A} (e : exn) : M A := fun w => (Raise e, w).

Definition bind {A B} (m : M A) (k : A -> M B) : M B :=
  fun w =>
    match m w with
    | (Ok a, w') => k a w'
    | (Raise e, w') => (Raise e, w')
    end.

(** [try: m except Exception as e: handler e]; the state changes made
    before the exception stay. *)
Definition try_except {A} (m : M A) (handler : exn -> M A) : M A :=
  fun w =>
    match m w with
    | (Ok a, w') => (Ok a, w')
    | (Raise e, w') => handler e w'
    end.

Definition lift {A} (r : result A) : M A := fun w => (r, w).

End Py.

Notation "'let*' x ':=' m 'in' k" := (Py.bind m (fun x => k))
  (at level 10, x name, m at level 100, k at level 200, only parsing).
Notation "m ';;;' k" := (Py.bind m (fun _ => k))
  (at level 100, k at level 200, right associativity, only parsing).

(** ** The library calls the module makes *)

(** [logger.info(...)], [logger.warning(...)], [logger.error(...)] *)
Definition logger (l : level) (m : list piece) : Py.M unit :=
  fun w =>
    (Ok tt,
     {| active_sessions := active_sessions w;
        pending_validations := pending_validations w;
        log := log w ++ [LogRecord l m];
        clock := clock w; ticks := ticks w;
        urandom := urandom w; draws := draws w |}).

(** [datetime.now().isoformat()]: one reading of the clock. *)
Definition now_isoformat : Py.M string :=
  fun w =>
    (Ok (clock w (ticks w)),
     {| active_sessions := active_sessions w;
        pending_validations := pending_validations w;
        log := log w;
        clock := clock w; ticks := S (ticks w);
        urandom := urandom w; draws := draws w |}).

(** [UUID(bytes=..., version=4).int]: the version and variant bits are
    forced on the 128 random bits. *)
Definition uuid4_int (r : Z) : Z :=
  let i := r mod 2 ^ 128 in
  let i := Z.land i (Z.lnot (Z.shiftl 0xc000 48)) in
  let i := Z.lor i (Z.shiftl 0x8000 48) in
  let i := Z.land i (Z.lnot (Z.shiftl 0xf000 64)) in
  Z.lor i (Z.shiftl 4 76).

(** [uuid.uuid4()]: one draw of 16 random bytes. *)
Definition uuid4 : Py.M Z :=
  fun w =>
    (Ok (uuid4_int (urandom w (draws w))),
     {| active_sessions := active_sessions w;
        pending_validations := pending_validations w;
        log := log w;
        clock := clock w; ticks := ticks w;
        urandom := urandom w; draws := S (draws w) |}).

Definition hex_digit (d : Z) : ascii :=
  match d with
  | 0 => "0" | 1 => "1" | 2 => "2" | 3 => "3" | 4 => "4" | 5 => "5"
  | 6 => "6" | 7 => "7" | 8 => "8" | 9 => "9" | 10 => "a" | 11 => "b"
  | 12 => "c" | 13 => "d" | 14 => "e" | _ => "f"
  end%char.

(** The [width] low hexadecimal digits of [n], most significant first, in
    front of [acc]. *)
Fixpoint hex_digits (width : nat) (n : Z) (acc : string) : string :=
  match width with
  | O => acc
  | S width' => hex_digits width' (n / 16) (String (hex_digit (n mod 16)) acc)
  end.

(** [UUID.hex]: ['%032x' % self.int] *)
Definition uuid_hex (u : Z) : string := hex_digits 32 u "".

(** [str(UUID)]: the hex digits grouped 8-4-4-4-12. *)
Definition uuid_str (u : Z) : string :=
  let hex := uuid_hex u in
  substring 0 8 hex +:+ "-" +:+ substring 8 4 hex +:+ "-" +:+
  substring 12 4 hex +:+ "-" +:+ substring 16 4 hex +:+ "-" +:+
  substring 20 12 hex.

(** The attribute lookup [data.get]: only a dict has it. *)
Definition attr_get (data : pyval) : Py.M pydict :=
  match data with
  | PDict d => Py.ret d
  | _ => Py.raise (AttributeError
           ("'" +:+ type_name data +:+ "' object has no attribute 'get'"))
  end.

(** [v.total_seconds()]: only a timedelta has it.  The timedelta is handed
    on as its number of microseconds; [whole_hours] makes the float. *)
Definition total_seconds_us (v : pyval) : Py.M Z :=
  match v with
  | PTimedelta us => Py.ret us
  | _ => Py.raise (AttributeError
           ("'" +:+ type_name v +:+ "' object has no attribute 'total_seconds'"))
  end.

(** [a / b] on ints, for a positive [b]: the float nearest to the exact
    quotient (ties to even). *)
Definition int_truediv (a b : Z) : spec_float :=
  match a with
  | Z0 => S754_zero false
  | Zpos p =>
      SFdiv 53 1024 (S754_finite false p 0) (S754_finite false (Z.to_pos b) 0)
  | Zneg p =>
      SFdiv 53 1024 (S754_finite true p 0) (S754_finite false (Z.to_pos b) 0)
  end.

(** [fmod(x, w)] for a positive finite [w]: exact, with the sign of [x]. *)
Definition float_fmod (x w : spec_float) : spec_float :=
  match x, w with
  | S754_finite sx mx ex, S754_finite _ mw ew =>
      let e0 := Z.min ex ew in
      let X := Z.pos mx * 2 ^ (ex - e0) in
      let W := Z.pos mw * 2 ^ (ew - e0) in
      binary_normalize 53 1024 (cond_Zopp sx (X mod W)) e0 sx
  | S754_zero s, S754_finite _ _ _ => S754_zero s
  | _, _ => S754_nan
  end.

(** [floor(x)] *)
Definition float_floor (x : spec_float) : spec_float :=
  match x with
  | S754_finite s m e =>
      if 0 <=? e then x
      else binary_normalize 53 1024 (cond_Zopp s (Z.pos m) / 2 ^ (- e)) 0 s
  | _ => x
  end.

(** [x // d] on a float, for a positive int [d], the way the interpreter
    computes it: the remainder by [fmod], the quotient of what is left,
    one less when the remainder is negative, then the floor (one more when
    the quotient lies more than a half above it); a zero quotient takes the
    sign of [x / d]. *)
Definition float_floordiv (x : spec_float) (d : Z) : spec_float :=
  let w := float_of_Z d in
  let md := float_fmod x w in
  let div := SFdiv 53 1024 (SFsub 53 1024 x md) w in
  let div :=
    match md with
    | S754_finite true _ _ => SFsub 53 1024 div (float_of_Z 1)
    | _ => div
    end in
  match div with
  | S754_zero _ =>
      match SFdiv 53 1024 x w with
      | S754_zero s | S754_finite s _ _ | S754_infinity s => S754_zero s
      | S754_nan => S754_nan
      end
  | S754_finite _ _ _ =>
      let fl := float_floor div in
      if SFltb (binary_normalize 53 1024 1 (-1) false) (SFsub 53 1024 div fl)
      then SFadd 53 1024 fl (float_of_Z 1)
      else fl
  | _ => div
  end.

(** [v.total_seconds() // 3600]: the microseconds divided by [10**6] as a
    float, then floor-divided by 3600. *)
Definition whole_hours (microseconds : Z) : pyval :=
  PFloat (float_floordiv (int_truediv microseconds (10 ^ 6)) 3600).

(** [v // d] for a positive int [d]. *)
Definition floordiv (v : pyval) (d : Z) : Py.M pyval :=
  match v with
  | PInt n => Py.ret (PInt (n / d))
  | PBool b => Py.ret (PInt ((if b then 1 else 0) / d))
  | PFloat f => Py.ret (PFloat (float_floordiv f d))
  | PTimedelta us => Py.ret (PTimedelta (us / d))
  | _ => Py.raise (TypeError
           ("unsupported operand type(s) for //: '" +:+ type_name v +:+
            "' and 'int'"))
  end.

(** [jsonify(d), code]: the response carries the dict when the JSON provider
    can serialise it. *)
Definition jsonify (d : pydict) (code : Z) : Py.M response :=
  if serializable (PDict d) then Py.ret (Response d code)
  else Py.raise (TypeError "Object of type timedelta is not JSON serializable").

(** [active_sessions[session_id] = session_data] *)
Definition store_session (session_id : string) (session_data : session)
  : Py.M unit :=
  fun w =>
    (Ok tt,
     {| active_sessions := <[session_id := session_data]> (active_sessions w);
        pending_validations := pending_validations w;
        log := log w;
        clock := clock w; ticks := ticks w;
        urandom := urandom w; draws := draws w |}).

(** [len(active_sessions)], [len(pending_validations)] *)
Definition len_active_sessions : Py.M nat :=
  fun w => (Ok (size (active_sessions w)), w).

Definition len_pending_validations : Py.M nat :=
  fun w => (Ok (size (pending_validations w)), w).

(** ** The handlers of app.py *)

(** [GET /ping] *)
Definition ping : Py.M response :=
  logger INFO [Txt "Ping request received"] ;;;
  let* timestamp := now_isoformat in
  jsonify [("status", PStr "ok");
           ("message", PStr "Server is running");
           ("timestamp", PStr timestamp)] 200.

(** [GET /status] *)
Definition status (app : application) : Py.M response :=
  logger INFO [Txt "Status check requested"] ;;;
  let openai_configured :=
    truthy (default PNone (config app !! "OPENAI_API_KEY")) in
  let* active_session_count := len_active_sessions in
  let* pending_validation_count := len_pending_validations in
  let* timestamp := now_isoformat in
  let services :=
    [("openai",
      PStr (if openai_configured then "configured" else "not_configured"));
     ("openai_model", default (PStr "not_set") (config app !! "OPENAI_MODEL"));
     ("sessions", PStr (pretty active_session_count +:+ " active"));
     ("validations", PStr (pretty pending_validation_count +:+ " pending"))] in
  let* max_content_length_mb :=
    floordiv (default (PInt 0) (config app !! "MAX_CONTENT_LENGTH"))
             (1024 * 1024) in
  let* lifetime :=
    total_seconds_us
      (default (PTimedelta (8 * 3600 * 1000000))
               (config app !! "SESSION_LIFETIME")) in
  let status_response :=
    [("status", PStr "healthy");
     ("timestamp", PStr timestamp);
     ("environment", PStr (env app));
     ("services", PDict services);
     ("config",
      PDict [("max_content_length_mb", max_content_length_mb);
             ("session_lifetime_hours", whole_hours lifetime);
             ("rate_limit_per_minute",
              default (PInt 10) (config app !! "RATE_LIMIT_PER_MINUTE"))]);
     ("version", PStr "1.0.0")] in
  jsonify status_response 200.

(** [@app.errorhandler(400)] *)
Definition bad_request (error : exn) : Py.M response :=
  logger WARNING [Txt "Bad request: "; Txt (str_exn error)] ;;;
  let* timestamp := now_isoformat in
  jsonify [("error", PStr "Bad Request");
           ("message", PStr "The request data is malformed or invalid");
           ("timestamp", PStr timestamp)] 400.

(** [@app.errorhandler(404)] *)
Definition not_found (req : request) (error : exn) : Py.M response :=
  logger WARNING [Txt "Endpoint not found: "; Txt (url req)] ;;;
  let* timestamp := now_isoformat in
  jsonify [("error", PStr "Not Found");
           ("message", PStr "The requested endpoint does not exist");
           ("timestamp", PStr timestamp)] 404.

(** [@app.errorhandler(500)] *)
Definition internal_error (error : exn) : Py.M response :=
  logger ERROR [Txt "Internal server error: "; Txt (str_exn error)] ;;;
  let* timestamp := now_isoformat in
  jsonify [("error", PStr "Internal Server Error");
           ("message",
            PStr "An unexpected error occurred. Please try again later.");
           ("timestamp", PStr timestamp)] 500.

(** [@app.before_request] *)
Definition log_request_info (req : request) : Py.M unit :=
  logger INFO [Txt "Request: "; Txt (method req); Txt " "; Txt (url req);
               Txt " from "; Txt (remote_addr req)].

(** [@app.after_request] *)
Definition log_response_info (req : request) (resp : response)
  : Py.M response :=
  logger INFO [Txt "Response: "; Txt (pretty (status_code resp)); Txt " for ";
               Txt (method req); Txt " "; Txt (url req)] ;;;
  Py.ret resp.

(** [POST /api/session/create] *)
Definition crear_sesion (req : request) : Py.M response :=
  Py.try_except
    (let* data := Py.lift (get_json req) in
     if negb (truthy data) then
       jsonify [("error", PStr "Datos requeridos")] 400
     else
       let* get := attr_get data in
       let* placeholder := uuid4 in
       let user_id :=
         dict_get get "user_id"
           (PStr ("user_" +:+ substring 0 8 (uuid_hex placeholder))) in
       let* get := attr_get data in
       let device_type := dict_get get "device_type" (PStr "unknown") in
       let* get := attr_get data in
       let app_version := dict_get get "app_version" (PStr "1.0.0") in
       let* u := uuid4 in
       let session_id := uuid_str u in
       let* created := now_isoformat in
       let* activity := now_isoformat in
       let session_data :=
         {| id := session_id;
            user_id := user_id;
            device_type := device_type;
            app_version := app_version;
            created_at := created;
            last_activity := activity;
            interaction_count := 0 |} in
       store_session session_id session_data ;;;
       logger INFO [Txt "Nueva sesión creada: "; Txt session_id;
                    Txt " para usuario "; Val user_id] ;;;
       let* timestamp := now_isoformat in
       jsonify [("session_id", PStr session_id);
                ("status", PStr "created");
                ("message", PStr "Sesión creada exitosamente");
                ("timestamp", PStr timestamp)] 201)
    (fun e =>
       logger ERROR [Txt "Error creando sesión: "; Txt (str_exn e)] ;;;
       jsonify [("error", PStr "Error interno del servidor");
                ("message", PStr (str_exn e))] 500).

(** [count()]: the number of entries of the registry. *)
Definition count (w : world) : nat := size (active_sessions w).

(** ** The operations of the core as transitions of the process state *)

Inductive operation : Type :=
| OpPing
| OpStatus
| OpCount
| OpCrearSesion (req : request)
| OpBadRequest (error : exn)
| OpNotFound (req : request) (error : exn)
| OpInternalError (error : exn)
| OpLogRequest (req : request)
| OpLogResponse (req : request) (resp : response).

(** The state an operation leaves behind, whether it returns or raises. *)
Definition exec (app : application) (op : operation) (w : world) : world :=
  match op with
  | OpPing => snd (ping w)
  | OpStatus => snd (status app w)
  | OpCount => w
  | OpCrearSesion req => snd (crear_sesion req w)
  | OpBadRequest e => snd (bad_request e w)
  | OpNotFound req e => snd (not_found req e w)
  | OpInternalError e => snd (internal_error e w)
  | OpLogRequest req => snd (log_request_info req w)
  | OpLogResponse req resp => snd (log_response_info req resp w)
  end.

(** The state when the module has been imported: both dictionaries empty. *)
Definition initial (clk : nat -> string) (rnd : nat -> Z) : world :=
  {| active_sessions := ∅; pending_validations := ∅; log := [];
     clock := clk; ticks := 0; urandom := rnd; draws := 0 |}.

Inductive reachable (app : application) : world -> Prop :=
| reachable_initial clk rnd : reachable app (initial clk rnd)
| reachable_exec w op : reachable app w -> reachable app (exec app op w).

(** ** Results of the handlers, spelled out *)

(** The identifier the next successful [crear_sesion] will return: the
    second draw of the call (the first one builds the user placeholder, which
    is computed whether or not the payload has a user_id). *)
Definition next_session_id (w : world) : string :=
  uuid_str (uuid4_int (urandom w (S (draws w)))).

(** The placeholder the next [crear_sesion] computes for a missing user_id. *)
Definition next_placeholder (w : world) : string :=
  "user_" +:+ substring 0 8 (uuid_hex (uuid4_int (urandom w (draws w)))).

Definition is_hex_char (c : ascii) : bool :=
  existsb (Ascii.eqb c) (list_ascii_of_string "0123456789abcdef").

Fixpoint all_hex (s : string) : bool :=
  match s with
  | EmptyString => true
  | String c s' => is_hex_char c && all_hex s'
  end.

(** [user_<8 hex chars>] *)
Definition is_user_placeholder (s : string) : Prop :=
  exists h, s = "user_" +:+ h /\ String.length h = 8%nat /\ all_hex h = true.

(** The record [crear_sesion] builds in state [w] from the payload [d]. *)
Definition new_session (d : pydict) (w : world) : session :=
  {| id := next_session_id w;
     user_id := dict_get d "user_id" (PStr (next_placeholder w));
     device_type := dict_get d "device_type" (PStr "unknown");
     app_version := dict_get d "app_version" (PStr "1.0.0");
     created_at := clock w (ticks w);
     last_activity := clock w (S (ticks w));
     interaction_count := 0 |}.

(** The state after a successful [crear_sesion]. *)
Definition world_after_create (d : pydict) (w : world) : world :=
  {| active_sessions :=
       <[next_session_id w := new_session d w]> (active_sessions w);
     pending_validations := pending_validations w;
     log := log w ++
            [LogRecord INFO
               [Txt "Nueva sesión creada: "; Txt (next_session_id w);
                Txt " para usuario "; Val (user_id (new_session d w))]];
     clock := clock w; ticks := S (S (S (ticks w)));
     urandom := urandom w; draws := S (S (draws w)) |}.

(** The 500 response of [crear_sesion] for the exception [e]. *)
Definition error_500 (e : exn) : response :=
  {| body := [("error", PStr "Error interno del servidor");
              ("message", PStr (str_exn e))];
     status_code := 500 |}.

(** The state after the [except] branch of [crear_sesion] for [e]. *)
Definition world_after_fault (e : exn) (w : world) : world :=
  {| active_sessions := active_sessions w;
     pending_validations := pending_validations w;
     log := log w ++
            [LogRecord ERROR [Txt "Error creando sesión: "; Txt (str_exn e)]];
     clock := clock w; ticks := ticks w;
     urandom := urandom w; draws := draws w |}.

(** The configuration entries have the types [status] expects of them: the
    session lifetime, when set, is a timedelta, and the two entries copied
    into the snapshot are values the JSON provider can serialise. *)
Definition well_typed (loaded : gmap string pyval) : bool :=
  match loaded !! "SESSION_LIFETIME" with
  | None | Some (PTimedelta _) => true
  | Some _ => false
  end
  && serializable (default PNone (loaded !! "OPENAI_MODEL"))
  && serializable (default PNone (loaded !! "RATE_LIMIT_PER_MINUTE")).

(** [d[k1][k2]] on a response body. *)
Definition body_path (d : pydict) (k1 k2 : string) : option pyval :=
  match dict_lookup d k1 with
  | Some (PDict inner) => dict_lookup inner k2
  | _ => None
  end.

(** The lifetime [status] converts: the configured one, or eight hours. *)
Definition lifetime_us (loaded : gmap string pyval) : Z :=
  match loaded !! "SESSION_LIFETIME" with
  | Some (PTimedelta us) => us
  | _ => 8 * 3600 * 1000000
  end.

(** The snapshot [status] builds in state [w]. *)
Definition snapshot (flask_env : option string) (loaded : gmap string pyval)
    (w : world) : pydict :=
  [("status", PStr "healthy");
   ("timestamp", PStr (clock w (ticks w)));
   ("environment", PStr (default "development" flask_env));
   ("services",
    PDict
      [("openai",
        PStr (if truthy (default PNone (loaded !! "OPENAI_API_KEY"))
              then "configured" else "not_configured"));
       ("openai_model", default (PStr "not_set") (loaded !! "OPENAI_MODEL"));
       ("sessions", PStr (pretty (size (active_sessions w)) +:+ " active"));
       ("validations",
        PStr (pretty (size (pending_validations w)) +:+ " pending"))]);
   ("config",
    PDict
      [("max_content_length_mb", PInt 16);
       ("session_lifetime_hours", whole_hours (lifetime_us loaded));
       ("rate_limit_per_minute",
        default (PInt 10) (loaded !! "RATE_LIMIT_PER_MINUTE"))]);
   ("version", PStr "1.0.0")].

(** The state after [status] has returned. *)
Definition world_after_status (w : world) : world :=
  {| active_sessions := active_sessions w;
     pending_validations := pending_validations w;
     log := log w ++ [LogRecord INFO [Txt "Status check requested"]];
     clock := clock w; ticks := S (ticks w);
     urandom := urandom w; draws := draws w |}.

(** A computation that leaves both dictionaries as they were, whether it
    returns or raises. *)
Definition read_only {A} (m : Py.M A) : Prop :=
  forall w,
    active_sessions (snd (m w)) = active_sessions w /\
    pending_validations (snd (m w)) = pending_validations w.

(** Every record sits under its own id. *)
Definition ids_are_keys (registry : gmap string session) : Prop :=
  forall k r, registry !! k = Some r -> id r = k.

(** ** Sample inputs *)

(** Readings one microsecond apart, none on a whole second. *)
Definition sample_clock (i : nat) : string :=
  "2024-05-01T12:00:00.00000" +:+ pretty (S (i mod 9)).

Definition sample_urandom (i : nat) : Z :=
  0x0123456789abcdef0123456789abcdef * (Z.of_nat i + 1).

Definition sample_world : world := initial sample_clock sample_urandom.

Definition sample_request (outcome : result pyval) : request :=
  {| method := "POST";
     url := "http://localhost:5000/api/session/create";
     remote_addr := "127.0.0.1";
     get_json := outcome |}.

(** [{"user_id":"u1","device_type":"android","app_version":"2.3"}] *)
Definition payload_u1 : pydict :=
  [("user_id", PStr "u1"); ("device_type", PStr "android");
   ("app_version", PStr "2.3")].

(** The body [[1]]: valid JSON, truthy, not an object. *)
Definition payload_array : pyval := PList [PInt 1].

(** What [get_json] raises on a body that is not valid JSON. *)
Definition malformed_body : exn :=
  HTTPException 400 "Bad Request"
    "The browser (or proxy) sent a request that this server could not understand.".

Definition sample_app : application := create_app None ∅.

(** The sample state after one session has been created. *)
Definition sample_world_one : world :=
  exec sample_app (OpCrearSesion (sample_request (Ok (PDict payload_u1))))
       sample_world.

(** The identifier returned for the sample payload in the sample state. *)
Definition sample_session_id : string := "02468acf-1357-4bde-8246-8acf13579bde".

(** A configuration with a credential and nothing else. *)
Definition sample_loaded : gmap string pyval :=
  {["OPENAI_API_KEY" := PStr "sk-test-0000"]}.

(** ** Further vocabulary *)

(** A computation under which the log only grows, by at most [n] lines. *)
Definition logs_at_most (n : nat) {A} (m : Py.M A) : Prop :=
  forall w,
    exists l : list log_record,
      log (snd (m w)) = (log w ++ l)%list /\ (length l <= n)%nat.

(** The payload [get_json] gives is a non-empty dict. *)
Definition object_payload (req : request) : bool :=
  match get_json req with
  | Ok (PDict (_ :: _)) => true
  | _ => false
  end.

(** Calls of [crear_sesion] one after the other, one per request. *)
Fixpoint crear_sesiones (reqs : list request) (w : world) : world :=
  match reqs with
  | [] => w
  | req :: reqs' => crear_sesiones reqs' (snd (crear_sesion req w))
  end.

(** Every call of the run draws an identifier that is not yet a key. *)
Fixpoint all_fresh (reqs : list request) (w : world) : Prop :=
  match reqs with
  | [] => True
  | req :: reqs' =>
      active_sessions w !! next_session_id w = None /\
      all_fresh reqs' (snd (crear_sesion req w))
  end.

(** ** The start-up options of the [__main__] block *)

(** [c.lower()] on one character: A-Z are mapped to a-z and every other
    byte is kept.  No character outside ASCII lowers to one of t, r, u, e,
    so the comparison with ['true'] below comes out as in Python. *)
Definition ascii_lower (c : ascii) : ascii :=
  let n := nat_of_ascii c in
  if ((65 <=? n) && (n <=? 90))%nat then ascii_of_nat (n + 32) else c.

(** [s.lower()] *)
Fixpoint str_lower (s : string) : string :=
  match s with
  | EmptyString => EmptyString
  | String c s' => String (ascii_lower c) (str_lower s')
  end.

(** [os.environ.get('FLASK_DEBUG', 'False').lower() == 'true'] *)
Definition debug_mode (environ : gmap string string) : bool :=
  String.eqb (str_lower (default "False" (environ !! "FLASK_DEBUG"))) "true".

(** [os.environ.get('HOST', '0.0.0.0')] *)
Definition host (environ : gmap string string) : string :=
  default "0.0.0.0" (environ !! "HOST").

(** A state with the registry of [sample_world_one] and the clock of
    [sample_world]. *)
Definition sample_world_alike : world :=
  {| active_sessions := active_sessions sample_world_one;
     pending_validations := ∅; log := [];
     clock := sample_clock; ticks := 0;
     urandom := sample_urandom; draws := 2 |}.

(** Two requests with object payloads. *)
Definition sample_requests : list request :=
  [sample_request (Ok (PDict payload_u1));
   sample_request (Ok (PDict [("device_type", PStr "ios")]))].

(** Five groups of 8, 4, 4, 4 and 12 lowercase hexadecimal digits, with
    dashes between them. *)
Definition is_uuid_shaped (s : string) : Prop :=
  exists a b c d e,
    s = a +:+ "-" +:+ b +:+ "-" +:+ c +:+ "-" +:+ d +:+ "-" +:+ e /\
    map String.length [a; b; c; d; e] = [8; 4; 4; 4; 12]%nat /\
    forallb all_hex [a; b; c; d; e] = true.

(** Operations run one after the other. *)
Fixpoint run_ops (app : application) (ops : list operation) (w : world)
  : world :=
  match ops with
  | [] => w
  | op :: ops' => run_ops app ops' (exec app op w)
  end.

(** The identifier under which the operation stores a record when it runs
    in state [w], if it stores one: only a [crear_sesion] with a non-empty
    dict payload does. *)
Definition stores_under (op : operation) (w : world) : option string :=
  match op with
  | OpCrearSesion req =>
      if object_payload req then Some (next_session_id w) else None
  | _ => None
  end.

(** No [crear_sesion] of the run draws the identifier [k]. *)
Fixpoint never_draws (app : application) (k : string) (ops : list operation)
    (w : world) : Prop :=
  match ops with
  | [] => True
  | op :: ops' =>
      stores_under op w <> Some k /\ never_draws app k ops' (exec app op w)
  end.

(** A status check, a failed and a successful creation, and a ping. *)
Definition sample_ops : list operation :=
  [OpStatus; OpCrearSesion (sample_request (Ok payload_array));
   OpCrearSesion (sample_request (Ok (PDict [("device_type", PStr "ios")])));
   OpPing].

(** An environment that asks for debug mode in capitals. *)
Definition sample_environ : gmap string string :=
  {["FLASK_DEBUG" := "TRUE"]}.

(** A random source that gives the same 16 bytes at every draw. *)
Definition repeating_world : world :=
  initial sample_clock (fun _ => 0x0123456789abcdef0123456789abcdef).

(** The state after one session has been created from it. *)
Definition repeating_world_one : world :=
  snd (crear_sesion (sample_request (Ok (PDict payload_u1))) repeating_world).

(** What [get_json] raises when the request has no JSON content type. *)
Definition no_json_content_type : exn :=
  HTTPException 415 "Unsupported Media Type"
    "Did not attempt to load JSON data because the request Content-Type was not 'application/json'.".

(** [{"user_id": null}] *)
Definition payload_null_user : pydict := [("user_id", PNone)].


(** ** Equations of the handlers *)

Lemma jsonify_ok d code w :
  serializable (PDict d) = true -> jsonify d code w = (Ok (Response d code), w).
Proof. unfold jsonify. intros ->. reflexivity. Qed.

(** A payload that is falsy: the 400 branch, and nothing else happens. *)
Lemma crear_sesion_falsy req data w :
  get_json req = Ok data -> truthy data = false ->
  crear_sesion req w =
    (Ok (Response [("error", PStr "Datos requeridos")] 400), w).
Proof.
  intros Hjson Hfalsy.
  unfold crear_sesion, Py.try_except, Py.bind, Py.lift.
  rewrite Hjson, Hfalsy. reflexivity.
Qed.

(** [get_json] raises: the [except] branch. *)
Lemma crear_sesion_get_json_raises req e w :
  get_json req = Raise e ->
  crear_sesion req w = (Ok (error_500 e), world_after_fault e w).
Proof.
  intros Hjson.
  unfold crear_sesion, Py.try_except, Py.bind, Py.lift.
  rewrite Hjson. reflexivity.
Qed.

(** A truthy payload that is not a dict: [data.get] raises before anything
    is drawn, read or stored. *)
Lemma crear_sesion_not_dict req data w :
  get_json req = Ok data -> truthy data = true ->
  (forall d, data <> PDict d) ->
  let e := AttributeError
             ("'" +:+ type_name data +:+ "' object has no attribute 'get'") in
  crear_sesion req w = (Ok (error_500 e), world_after_fault e w).
Proof.
  intros Hjson Htruthy Hnot. cbv zeta.
  unfold crear_sesion, Py.try_except, Py.bind, Py.lift.
  rewrite Hjson, Htruthy.
  destruct data; try reflexivity.
  exfalso. eapply Hnot. reflexivity.
Qed.

(** A non-empty dict: the record is stored and the 201 response returned. *)
Lemma crear_sesion_dict req d w :
  get_json req = Ok (PDict d) -> d <> [] ->
  crear_sesion req w =
    (Ok (Response [("session_id", PStr (next_session_id w));
                   ("status", PStr "created");
                   ("message", PStr "Sesión creada exitosamente");
                   ("timestamp", PStr (clock w (S (S (ticks w)))))] 201),
     world_after_create d w).
Proof.
  intros Hjson Hne.
  unfold crear_sesion, Py.try_except, Py.bind, Py.lift.
  rewrite Hjson.
  destruct d as [|kv d]; [congruence|].
  reflexivity.
Qed.
Lemma crear_sesion_cases req w :
  (exists data, get_json req = Ok data /\ truthy data = false /\
     crear_sesion req w =
       (Ok (Response [("error", PStr "Datos requeridos")] 400), w))
  \/ (exists e, crear_sesion req w = (Ok (error_500 e), world_after_fault e w))
  \/ (exists d, get_json req = Ok (PDict d) /\ d <> [] /\
        crear_sesion req w =
          (Ok (Response [("session_id", PStr (next_session_id w));
                         ("status", PStr "created");
                         ("message", PStr "Sesión creada exitosamente");
                         ("timestamp", PStr (clock w (S (S (ticks w)))))] 201),
           world_after_create d w)).
Proof.
  destruct (get_json req) as [data|e] eqn:Hjson.
  - destruct (truthy data) eqn:Htruthy.
    + destruct data as [| | | | | |d|];
        try (right; left; eexists;
             apply (crear_sesion_not_dict req _ w Hjson Htruthy); congruence).
      right; right. exists d. split; [reflexivity|].
      assert (Hne : d <> []) by (intros ->; discriminate Htruthy).
      split; [exact Hne | exact (crear_sesion_dict req d w Hjson Hne)].
    + left. exists data.
      split; [reflexivity|]. split; [exact Htruthy|].
      exact (crear_sesion_falsy req data w Hjson Htruthy).
  - right; left. exists e. exact (crear_sesion_get_json_raises req e w Hjson).
Qed.

Lemma hex_digit_is_hex d : is_hex_char (hex_digit d) = true.
Proof.
  destruct d as [|p|p]; [reflexivity| |reflexivity].
  do 5 (try destruct p as [p|p|]); reflexivity.
Qed.

Lemma string_app_cons c (s t : string) : String c s +:+ t = String c (s +:+ t).
Proof. reflexivity. Qed.

Lemma string_app_assoc (s t u : string) : (s +:+ t) +:+ u = s +:+ (t +:+ u).
Proof.
  induction s as [|c s IH]; [reflexivity|].
  rewrite !string_app_cons, IH. reflexivity.
Qed.

Lemma string_app_nil_r (s : string) : s +:+ "" = s.
Proof.
  induction s as [|c s IH]; [reflexivity|].
  rewrite string_app_cons, IH. reflexivity.
Qed.

Lemma string_length_app (s t : string) :
  String.length (s +:+ t) = (String.length s + String.length t)%nat.
Proof.
  induction s as [|c s IH]; [reflexivity|].
  rewrite string_app_cons. simpl. rewrite IH. reflexivity.
Qed.

Lemma all_hex_app s t : all_hex (s +:+ t) = all_hex s && all_hex t.
Proof.
  induction s as [|c s IH]; [reflexivity|].
  rewrite string_app_cons. simpl. rewrite IH. apply andb_assoc.
Qed.

Lemma hex_digits_spec width : forall n acc,
  exists h, hex_digits width n acc = h +:+ acc /\
            String.length h = width /\ all_hex h = true.
Proof.
  induction width as [|width IH]; intros n acc.
  - exists "". auto.
  - destruct (IH (n / 16) (String (hex_digit (n mod 16)) acc))
      as (h & Heq & Hlen & Hhex).
    exists (h +:+ String (hex_digit (n mod 16)) "").
    split; [|split].
    + simpl. rewrite Heq, string_app_assoc. reflexivity.
    + rewrite string_length_app. simpl. lia.
    + rewrite all_hex_app, Hhex. simpl. rewrite hex_digit_is_hex. reflexivity.
Qed.

Lemma substring_prefix m : forall s,
  (m <= String.length s)%nat ->
  String.length (substring 0 m s) = m /\
  (all_hex s = true -> all_hex (substring 0 m s) = true).
Proof.
  induction m as [|m IH]; intros s Hlen.
  - destruct s; simpl; auto.
  - destruct s as [|c s]; simpl in *; [lia|].
    destruct (IH s) as [Hl Hh]; [lia|]. split; [lia|].
    intros [Hc Hs]%andb_prop. rewrite Hc, Hh; auto.
Qed.

Lemma next_placeholder_form w : is_user_placeholder (next_placeholder w).
Proof.
  unfold next_placeholder, uuid_hex.
  destruct (hex_digits_spec 32 (uuid4_int (urandom w (draws w))) "")
    as (h & -> & Hlen & Hhex).
  exists (substring 0 8 (h +:+ "")). split; [reflexivity|].
  rewrite string_app_nil_r.
  destruct (substring_prefix 8 h) as [Hl Ha]; [lia|]. auto.
Qed.

(** ** Equations of [status] *)

Lemma config_lookup_other fe loaded k :
  k <> "MAX_CONTENT_LENGTH" ->
  config (create_app fe loaded) !! k = loaded !! k.
Proof. intros Hk. simpl. apply lookup_insert_ne. congruence. Qed.

Lemma config_lookup_limit fe loaded :
  config (create_app fe loaded) !! "MAX_CONTENT_LENGTH"
  = Some (PInt (16 * 1024 * 1024)).
Proof. simpl. apply lookup_insert_eq. Qed.

Ltac config_lookups :=
  rewrite ?config_lookup_limit;
  rewrite ?config_lookup_other by discriminate.

Lemma status_returns fe loaded w :
  well_typed loaded = true ->
  status (create_app fe loaded) w
  = (Ok (Response (snapshot fe loaded w) 200), world_after_status w).
Proof.
  unfold well_typed, snapshot, lifetime_us.
  intros [[Hlife Hmodel]%andb_prop Hrate]%andb_prop.
  unfold status, Py.bind. config_lookups.
  destruct (loaded !! "SESSION_LIFETIME") as [[]|]; try discriminate Hlife;
    destruct (loaded !! "OPENAI_MODEL") as [model|];
    destruct (loaded !! "RATE_LIMIT_PER_MINUTE") as [rate|];
    simpl in Hmodel, Hrate; simpl; unfold jsonify; simpl;
    rewrite ?Hmodel, ?Hrate; reflexivity.
Qed.

(** What [status] does when the lifetime entry is not a timedelta. *)
Lemma status_raises fe loaded w v :
  loaded !! "SESSION_LIFETIME" = Some v ->
  (forall us, v <> PTimedelta us) ->
  fst (status (create_app fe loaded) w)
  = Raise (AttributeError
             ("'" +:+ type_name v +:+
              "' object has no attribute 'total_seconds'")).
Proof.
  intros Hv Hnot. unfold status, Py.bind. config_lookups. rewrite Hv.
  destruct v; try reflexivity. exfalso. eapply Hnot. reflexivity.
Qed.

(** Whenever [status] returns, it returns the snapshot with code 200. *)
Lemma status_inversion fe loaded w resp w' :
  status (create_app fe loaded) w = (Ok resp, w') ->
  resp = Response (snapshot fe loaded w) 200 /\ w' = world_after_status w.
Proof.
  unfold status, Py.bind, snapshot, lifetime_us. config_lookups.
  destruct (loaded !! "SESSION_LIFETIME") as [[]|]; simpl;
    try discriminate;
    unfold jsonify;
    match goal with |- context [serializable ?v] =>
      destruct (serializable v)
    end;
    intros [= <- <-] || discriminate; split; reflexivity.
Qed.

(** *** Computations that leave the two dictionaries alone *)

Lemma read_only_ret {A} (a : A) : read_only (Py.ret a).
Proof. intros w. split; reflexivity. Qed.

Lemma read_only_raise {A} e : read_only (@Py.raise A e).
Proof. intros w. split; reflexivity. Qed.

Lemma read_only_lift {A} (r : result A) : read_only (Py.lift r).
Proof. intros w. split; reflexivity. Qed.

Lemma read_only_bind {A B} (m : Py.M A) (k : A -> Py.M B) :
  read_only m -> (forall a, read_only (k a)) -> read_only (Py.bind m k).
Proof.
  intros Hm Hk w. unfold Py.bind.
  destruct (Hm w) as [Hs Hp]. destruct (m w) as [[a|e] w1]; simpl in *.
  - destruct (Hk a w1) as [Hs' Hp']. split; congruence.
  - split; assumption.
Qed.

Lemma read_only_try_except {A} (m : Py.M A) (h : exn -> Py.M A) :
  read_only m -> (forall e, read_only (h e)) -> read_only (Py.try_except m h).
Proof.
  intros Hm Hh w. unfold Py.try_except.
  destruct (Hm w) as [Hs Hp]. destruct (m w) as [[a|e] w1]; simpl in *.
  - split; assumption.
  - destruct (Hh e w1) as [Hs' Hp']. split; congruence.
Qed.

Lemma read_only_logger l m : read_only (logger l m).
Proof. intros w. split; reflexivity. Qed.

Lemma read_only_now : read_only now_isoformat.
Proof. intros w. split; reflexivity. Qed.

Lemma read_only_uuid4 : read_only uuid4.
Proof. intros w. split; reflexivity. Qed.

Lemma read_only_len_active : read_only len_active_sessions.
Proof. intros w. split; reflexivity. Qed.

Lemma read_only_len_pending : read_only len_pending_validations.
Proof. intros w. split; reflexivity. Qed.

Lemma read_only_attr_get data : read_only (attr_get data).
Proof. destruct data; intros w; split; reflexivity. Qed.

Lemma read_only_total_seconds v : read_only (total_seconds_us v).
Proof. destruct v; intros w; split; reflexivity. Qed.

Lemma read_only_floordiv v d : read_only (floordiv v d).
Proof. destruct v; intros w; split; reflexivity. Qed.

Lemma read_only_jsonify d code : read_only (jsonify d code).
Proof.
  intros w. unfold jsonify. destruct (serializable (PDict d)); split; reflexivity.
Qed.

Create HintDb frame.
#[local] Hint Resolve read_only_ret read_only_raise read_only_lift
  read_only_logger read_only_now read_only_uuid4 read_only_len_active
  read_only_len_pending read_only_attr_get read_only_total_seconds
  read_only_floordiv read_only_jsonify : frame.

Ltac frame :=
  cbv zeta;
  repeat first
    [ apply read_only_bind; [|intro]
    | apply read_only_try_except; [|intro]
    | solve [auto with frame] ].

Lemma read_only_ping : read_only ping.
Proof. unfold ping. frame. Qed.

(** [status] never writes to the two dictionaries, whether it returns or
    raises. *)
Lemma read_only_status app : read_only (status app).
Proof. unfold status. frame. Qed.

Lemma read_only_bad_request e : read_only (bad_request e).
Proof. unfold bad_request. frame. Qed.

Lemma read_only_not_found req e : read_only (not_found req e).
Proof. unfold not_found. frame. Qed.

Lemma read_only_internal_error e : read_only (internal_error e).
Proof. unfold internal_error. frame. Qed.

Lemma read_only_log_request_info req : read_only (log_request_info req).
Proof. unfold log_request_info. frame. Qed.

Lemma read_only_log_response_info req resp :
  read_only (log_response_info req resp).
Proof. unfold log_response_info. frame. Qed.


(** ** The registry *)

Lemma exec_sessions app op w :
  active_sessions (exec app op w) = active_sessions w \/
  exists d, active_sessions (exec app op w)
            = <[next_session_id w := new_session d w]> (active_sessions w).
Proof.
  destruct op; cbn [exec].
  - left. apply read_only_ping.
  - left. apply read_only_status.
  - left. reflexivity.
  - destruct (crear_sesion_cases req w)
      as [(data & _ & _ & ->) | [(e & ->) | (d & _ & _ & ->)]]; simpl; eauto.
  - left. apply read_only_bad_request.
  - left. apply read_only_not_found.
  - left. apply read_only_internal_error.
  - left. apply read_only_log_request_info.
  - left. apply read_only_log_response_info.
Qed.

Lemma exec_pending app op w :
  pending_validations (exec app op w) = pending_validations w.
Proof.
  destruct op; cbn [exec].
  - apply read_only_ping.
  - apply read_only_status.
  - reflexivity.
  - destruct (crear_sesion_cases req w)
      as [(data & _ & _ & ->) | [(e & ->) | (d & _ & _ & ->)]]; reflexivity.
  - apply read_only_bad_request.
  - apply read_only_not_found.
  - apply read_only_internal_error.
  - apply read_only_log_request_info.
  - apply read_only_log_response_info.
Qed.

Lemma ids_are_keys_insert registry d w :
  ids_are_keys registry ->
  ids_are_keys (<[next_session_id w := new_session d w]> registry).
Proof.
  intros Hinv k r. rewrite lookup_insert. case_decide as Hk.
  - intros [= <-]. subst k. reflexivity.
  - apply Hinv.
Qed.

Lemma reachable_ids_are_keys app w :
  reachable app w -> ids_are_keys (active_sessions w).
Proof.
  induction 1 as [clk rnd | w op Hreach IH].
  - intros k r. simpl. rewrite lookup_empty. discriminate.
  - destruct (exec_sessions app op w) as [-> | (d & ->)].
    + exact IH.
    + apply ids_are_keys_insert, IH.
Qed.

(** The pending-validation mapping is never populated. *)
Lemma reachable_pending_empty app w :
  reachable app w -> pending_validations w = ∅.
Proof.
  induction 1 as [clk rnd | w op Hreach IH]; [reflexivity|].
  rewrite exec_pending. exact IH.
Qed.

(** C6: in every reachable state each stored record's id is the key it is
    stored under, so no two entries of the registry carry the same id; and
    whatever operation runs next, a key that holds a record still holds a
    record with the same id afterwards. *)
Theorem session_ids_unique_and_stable app w :
  reachable app w ->
  (forall k r, active_sessions w !! k = Some r -> id r = k) /\
  (forall k1 k2 r1 r2,
      active_sessions w !! k1 = Some r1 ->
      active_sessions w !! k2 = Some r2 ->
      id r1 = id r2 -> k1 = k2) /\
  (forall op k r,
      active_sessions w !! k = Some r ->
      exists r', active_sessions (exec app op w) !! k = Some r' /\
                 id r' = id r).
Proof.
  intros Hreach.
  pose proof (reachable_ids_are_keys app w Hreach) as Hinv.
  split; [exact Hinv|]. split.
  - intros k1 k2 r1 r2 H1 H2 Hid.
    rewrite <- (Hinv k1 r1 H1), <- (Hinv k2 r2 H2). exact Hid.
  - intros op k r Hk.
    destruct (exec_sessions app op w) as [-> | (d & ->)].
    + exists r. split; [exact Hk | reflexivity].
    + rewrite lookup_insert. case_decide as Heq.
      * exists (new_session d w). split; [reflexivity|].
        simpl. rewrite (Hinv k r Hk). exact Heq.
      * exists r. split; [exact Hk | reflexivity].
Qed.

Lemma session_ids_unique_and_stable_witness :
  reachable sample_app sample_world_one /\
  (forall k r, active_sessions sample_world_one !! k = Some r -> id r = k) /\
  (forall k1 k2 r1 r2,
      active_sessions sample_world_one !! k1 = Some r1 ->
      active_sessions sample_world_one !! k2 = Some r2 ->
      id r1 = id r2 -> k1 = k2) /\
  (forall op k r,
      active_sessions sample_world_one !! k = Some r ->
      exists r',
        active_sessions (exec sample_app op sample_world_one) !! k = Some r' /\
        id r' = id r).
Proof.
  assert (Hreach : reachable sample_app sample_world_one).
  { apply reachable_exec. apply reachable_initial. }
  split; [exact Hreach|].
  apply (session_ids_unique_and_stable sample_app sample_world_one Hreach).
Defined.

(** ** Creating a session *)

(** C1, as stated, fails: when the random source gives the same bytes
    again, the second creation answers 201 with an identifier that is
    already a key, the record under it is replaced, and the registry has as
    many entries as before. *)
Lemma crear_sesion_same_id_twice :
  exists resp w',
    crear_sesion (sample_request (Ok (PDict [("device_type", PStr "ios")])))
                 repeating_world_one = (Ok resp, w') /\
    status_code resp = 201 /\
    dict_lookup (body resp) "session_id"
      = Some (PStr "01234567-89ab-4def-8123-456789abcdef") /\
    is_Some (active_sessions repeating_world_one
               !! "01234567-89ab-4def-8123-456789abcdef") /\
    count repeating_world_one = 1%nat /\
    count w' = 1%nat /\
    count w' <> S (count repeating_world_one).
Proof.
  assert (Hne : [("device_type", PStr "ios")] <> ([] : pydict))
    by discriminate.
  eexists _, _.
  split; [apply (crear_sesion_dict _ [("device_type", PStr "ios")]);
          [reflexivity | exact Hne]|].
  split; [reflexivity|].
  split; [vm_compute; reflexivity|].
  split; [vm_compute; eauto|].
  assert (H1 : count repeating_world_one = 1%nat) by (vm_compute; reflexivity).
  assert (H2 : count (world_after_create [("device_type", PStr "ios")]
                        repeating_world_one) = 1%nat)
    by (vm_compute; reflexivity).
  split; [exact H1|]. split; [exact H2|].
  rewrite H1, H2. discriminate.
Qed.

(** C1, amended: a payload that is a non-empty object is answered with
    status 201 and a body carrying the new identifier, the marker "created"
    and a timestamp; on return the identifier is a key of the registry; the
    registry has exactly one entry more when the identifier was not yet a
    key, and as many as before when it was. *)
Theorem crear_sesion_created req d w :
  get_json req = Ok (PDict d) -> d <> [] ->
  exists resp w',
    crear_sesion req w = (Ok resp, w') /\
    status_code resp = 201 /\
    dict_lookup (body resp) "session_id" = Some (PStr (next_session_id w)) /\
    dict_lookup (body resp) "status" = Some (PStr "created") /\
    dict_lookup (body resp) "timestamp"
      = Some (PStr (clock w (S (S (ticks w))))) /\
    is_Some (active_sessions w' !! next_session_id w) /\
    (active_sessions w !! next_session_id w = None ->
     count w' = S (count w)) /\
    (is_Some (active_sessions w !! next_session_id w) ->
     count w' = count w).
Proof.
  intros Hjson Hne.
  eexists _, _. split; [exact (crear_sesion_dict req d w Hjson Hne)|].
  split; [reflexivity|]. split; [reflexivity|].
  split; [reflexivity|]. split; [reflexivity|].
  split; [simpl; rewrite lookup_insert_eq; eauto|].
  unfold count. simpl. split.
  - intros Hfresh. apply map_size_insert_None, Hfresh.
  - intros Hold. apply map_size_insert_Some, Hold.
Qed.

Lemma crear_sesion_created_witness :
  get_json (sample_request (Ok (PDict payload_u1))) = Ok (PDict payload_u1) /\
  payload_u1 <> [] /\
  active_sessions sample_world !! next_session_id sample_world = None /\
  exists resp w',
    crear_sesion (sample_request (Ok (PDict payload_u1))) sample_world
      = (Ok resp, w') /\
    status_code resp = 201 /\
    dict_lookup (body resp) "session_id"
      = Some (PStr (next_session_id sample_world)) /\
    dict_lookup (body resp) "status" = Some (PStr "created") /\
    dict_lookup (body resp) "timestamp"
      = Some (PStr (clock sample_world (S (S (ticks sample_world))))) /\
    is_Some (active_sessions w' !! next_session_id sample_world) /\
    count w' = S (count sample_world).
Proof.
  assert (Hne : payload_u1 <> []) by discriminate.
  assert (Hfresh : active_sessions sample_world
                     !! next_session_id sample_world = None)
    by reflexivity.
  split; [reflexivity|]. split; [exact Hne|]. split; [exact Hfresh|].
  destruct (crear_sesion_created (sample_request (Ok (PDict payload_u1)))
              payload_u1 sample_world eq_refl Hne)
    as (resp & w' & Hrun & Hcode & Hid & Hstatus & Hts & Hkey & Hnew & _).
  exists resp, w'.
  split; [exact Hrun|]. split; [exact Hcode|]. split; [exact Hid|].
  split; [exact Hstatus|]. split; [exact Hts|]. split; [exact Hkey|].
  exact (Hnew Hfresh).
Defined.

(** Without a new identifier the record under it is replaced and the size
    stays. *)
Lemma crear_sesion_collision req d w old :
  get_json req = Ok (PDict d) -> d <> [] ->
  active_sessions w !! next_session_id w = Some old ->
  count (snd (crear_sesion req w)) = count w.
Proof.
  intros Hjson Hne Hold. rewrite (crear_sesion_dict req d w Hjson Hne).
  unfold count. simpl. apply map_size_insert_Some. rewrite Hold. eauto.
Qed.

(** A payload value that is falsy (the JSON null, [{}], [[]], 0, the empty
    string, false) is answered with status 400 and an error body, and the
    state, the registry and its count with it, is what it was. *)
Theorem crear_sesion_empty_payload req data w :
  get_json req = Ok data -> truthy data = false ->
  exists resp w',
    crear_sesion req w = (Ok resp, w') /\
    status_code resp = 400 /\
    dict_lookup (body resp) "error" = Some (PStr "Datos requeridos") /\
    w' = w /\
    active_sessions w' = active_sessions w /\
    count w' = count w.
Proof.
  intros Hjson Hfalsy.
  eexists _, _. split; [exact (crear_sesion_falsy req data w Hjson Hfalsy)|].
  repeat split.
Qed.

Lemma crear_sesion_empty_payload_witness :
  (get_json (sample_request (Ok (PDict []))) = Ok (PDict []) /\
   truthy (PDict []) = false /\
   exists resp w',
     crear_sesion (sample_request (Ok (PDict []))) sample_world_one
       = (Ok resp, w') /\
     status_code resp = 400 /\
     dict_lookup (body resp) "error" = Some (PStr "Datos requeridos") /\
     w' = sample_world_one /\
     active_sessions w' = active_sessions sample_world_one /\
     count w' = count sample_world_one) /\
  (get_json (sample_request (Ok PNone)) = Ok PNone /\
   truthy PNone = false).
Proof.
  split; [|split; reflexivity].
  split; [reflexivity|]. split; [reflexivity|].
  apply (crear_sesion_empty_payload _ (PDict []) sample_world_one);
    reflexivity.
Defined.

(** C5: a request without a payload makes [get_json] raise, a BadRequest
    for an empty body sent as JSON and an UnsupportedMediaType for a request
    without a JSON content type; the handler catches it and answers 500,
    not 400.  The registry is what it was. *)
Theorem crear_sesion_missing_payload_gets_500 :
  (exists resp w',
     crear_sesion (sample_request (Raise malformed_body)) sample_world_one
       = (Ok resp, w') /\
     status_code resp = 500 /\
     dict_lookup (body resp) "message"
       = Some (PStr "400 Bad Request: The browser (or proxy) sent a request that this server could not understand.") /\
     active_sessions w' = active_sessions sample_world_one) /\
  (exists resp w',
     crear_sesion (sample_request (Raise no_json_content_type))
                  sample_world_one = (Ok resp, w') /\
     status_code resp = 500 /\
     dict_lookup (body resp) "message"
       = Some (PStr "415 Unsupported Media Type: Did not attempt to load JSON data because the request Content-Type was not 'application/json'.") /\
     active_sessions w' = active_sessions sample_world_one).
Proof.
  split; eexists _, _.
  - split; [apply (crear_sesion_get_json_raises _ malformed_body);
            reflexivity|].
    split; [reflexivity|]. split; [vm_compute; reflexivity | reflexivity].
  - split; [apply (crear_sesion_get_json_raises _ no_json_content_type);
            reflexivity|].
    split; [reflexivity|]. split; [vm_compute; reflexivity | reflexivity].
Qed.

(** C10: a payload that is truthy but not an object is answered with the 500
    response of the handler, not with the 400 one, and both dictionaries are
    what they were. *)
Theorem crear_sesion_non_object_payload req data w :
  get_json req = Ok data -> truthy data = true ->
  (forall d, data <> PDict d) ->
  exists resp w',
    crear_sesion req w = (Ok resp, w') /\
    status_code resp = 500 /\
    status_code resp <> 400 /\
    dict_lookup (body resp) "error"
      = Some (PStr "Error interno del servidor") /\
    active_sessions w' = active_sessions w /\
    pending_validations w' = pending_validations w /\
    count w' = count w.
Proof.
  intros Hjson Htruthy Hnot.
  eexists _, _.
  split; [exact (crear_sesion_not_dict req data w Hjson Htruthy Hnot)|].
  repeat split. discriminate.
Qed.

Lemma crear_sesion_non_object_payload_witness :
  get_json (sample_request (Ok payload_array)) = Ok payload_array /\
  truthy payload_array = true /\
  (forall d, payload_array <> PDict d) /\
  exists resp w',
    crear_sesion (sample_request (Ok payload_array)) sample_world_one
      = (Ok resp, w') /\
    status_code resp = 500 /\
    status_code resp <> 400 /\
    dict_lookup (body resp) "error"
      = Some (PStr "Error interno del servidor") /\
    active_sessions w' = active_sessions sample_world_one /\
    pending_validations w' = pending_validations sample_world_one /\
    count w' = count sample_world_one.
Proof.
  split; [reflexivity|]. split; [reflexivity|].
  split; [intros d; discriminate|].
  apply (crear_sesion_non_object_payload _ payload_array sample_world_one);
    [reflexivity | reflexivity | intros d; discriminate].
Defined.

(** C7, as stated, fails twice.  The two timestamps of the stored record
    are two readings of the clock, and the clock may move between them:
    here the call succeeds and the record has created_at ...000001 and
    last_activity ...000002.  And a user_id that is present is stored as it
    came, string or not: for the payload [{"user_id": null}] the call
    succeeds and the record's user_id is None, neither a string nor a
    placeholder. *)
Lemma crear_sesion_record_differs :
  (exists resp w' r,
     crear_sesion (sample_request (Ok (PDict payload_u1))) sample_world
       = (Ok resp, w') /\
     status_code resp = 201 /\
     dict_lookup (body resp) "session_id" = Some (PStr sample_session_id) /\
     active_sessions w' !! sample_session_id = Some r /\
     created_at r = "2024-05-01T12:00:00.000001" /\
     last_activity r = "2024-05-01T12:00:00.000002" /\
     created_at r <> last_activity r) /\
  (exists resp w' r,
     crear_sesion (sample_request (Ok (PDict payload_null_user))) sample_world
       = (Ok resp, w') /\
     status_code resp = 201 /\
     dict_lookup (body resp) "session_id" = Some (PStr sample_session_id) /\
     active_sessions w' !! sample_session_id = Some r /\
     user_id r = PNone /\
     forall s, user_id r <> PStr s).
Proof.
  split.
  - eexists _, _, _.
    split; [apply (crear_sesion_dict _ payload_u1); [reflexivity|discriminate]|].
    split; [reflexivity|].
    split; [vm_compute; reflexivity|].
    split; [simpl; apply lookup_insert_eq|].
    split; [vm_compute; reflexivity|]. split; [vm_compute; reflexivity|].
    vm_compute. discriminate.
  - eexists _, _, _.
    split; [apply (crear_sesion_dict _ payload_null_user);
            [reflexivity|discriminate]|].
    split; [reflexivity|].
    split; [vm_compute; reflexivity|].
    split; [simpl; apply lookup_insert_eq|].
    split; [reflexivity|]. intros s. discriminate.
Qed.

(** C7, amended: after a successful call the record stored under the
    returned identifier has the user_id of the payload, whatever value that
    is, or a placeholder
    [user_] followed by 8 hexadecimal digits when the payload has none; the
    device_type and app_version of the payload, or "unknown" and "1.0.0";
    interaction_count 0; created_at is the first reading of the clock in the
    call and last_activity the second, so the two are equal when the clock
    gives the same reading twice. *)
Theorem crear_sesion_record req w resp w' :
  crear_sesion req w = (Ok resp, w') -> status_code resp = 201 ->
  exists d r,
    get_json req = Ok (PDict d) /\
    dict_lookup (body resp) "session_id" = Some (PStr (id r)) /\
    active_sessions w' !! id r = Some r /\
    (forall v, dict_lookup d "user_id" = Some v -> user_id r = v) /\
    (dict_lookup d "user_id" = None ->
     exists s, user_id r = PStr s /\ is_user_placeholder s) /\
    device_type r = default (PStr "unknown") (dict_lookup d "device_type") /\
    app_version r = default (PStr "1.0.0") (dict_lookup d "app_version") /\
    interaction_count r = 0 /\
    created_at r = clock w (ticks w) /\
    last_activity r = clock w (S (ticks w)) /\
    (clock w (ticks w) = clock w (S (ticks w)) ->
     created_at r = last_activity r).
Proof.
  intros Hrun Hcode.
  destruct (crear_sesion_cases req w)
    as [(data & _ & _ & Heq) | [(e & Heq) | (d & Hjson & _ & Heq)]];
    rewrite Heq in Hrun; injection Hrun as <- <-; try discriminate Hcode.
  exists d, (new_session d w). split; [exact Hjson|].
  split; [reflexivity|].
  split; [simpl; apply lookup_insert_eq|].
  unfold new_session, dict_get; simpl.
  split; [intros v ->; reflexivity|].
  split.
  { intros ->. eexists. split; [reflexivity|]. apply next_placeholder_form. }
  split; [destruct (dict_lookup d "device_type"); reflexivity|].
  split; [destruct (dict_lookup d "app_version"); reflexivity|].
  auto.
Qed.

Lemma crear_sesion_record_witness :
  exists resp w',
    crear_sesion (sample_request (Ok (PDict [("device_type", PStr "ios")])))
                 sample_world = (Ok resp, w') /\
    status_code resp = 201 /\
    exists d r,
      get_json (sample_request (Ok (PDict [("device_type", PStr "ios")])))
        = Ok (PDict d) /\
      dict_lookup (body resp) "session_id" = Some (PStr (id r)) /\
      active_sessions w' !! id r = Some r /\
      (forall v, dict_lookup d "user_id" = Some v -> user_id r = v) /\
      (dict_lookup d "user_id" = None ->
       exists s, user_id r = PStr s /\ is_user_placeholder s) /\
      device_type r = default (PStr "unknown") (dict_lookup d "device_type") /\
      app_version r = default (PStr "1.0.0") (dict_lookup d "app_version") /\
      interaction_count r = 0 /\
      created_at r = clock sample_world (ticks sample_world) /\
      last_activity r = clock sample_world (S (ticks sample_world)) /\
      (clock sample_world (ticks sample_world)
         = clock sample_world (S (ticks sample_world)) ->
       created_at r = last_activity r).
Proof.
  eexists _, _. split; [reflexivity|]. split; [reflexivity|].
  apply (crear_sesion_record
           (sample_request (Ok (PDict [("device_type", PStr "ios")])))
           sample_world);
    reflexivity.
Defined.

(** ** The status snapshot *)






(** ** The error responses *)

(** The three registered error handlers answer with the full envelope. *)
Lemma error_handlers_envelope req e w :
  forall resp,
    (fst (bad_request e w) = Ok resp \/
     fst (not_found req e w) = Ok resp \/
     fst (internal_error e w) = Ok resp) ->
    is_Some (dict_lookup (body resp) "error") /\
    is_Some (dict_lookup (body resp) "message") /\
    dict_lookup (body resp) "timestamp" = Some (PStr (clock w (ticks w))).
Proof.
  intros resp [H | [H | H]]; injection H as <-; simpl; eauto.
Qed.

(** The 500 handler's message is fixed: it does not depend on the error. *)
Lemma internal_error_generic e w :
  exists resp,
    fst (internal_error e w) = Ok resp /\ status_code resp = 500 /\
    dict_lookup (body resp) "message"
      = Some (PStr "An unexpected error occurred. Please try again later.").
Proof. eexists. repeat split. Qed.

(** Every 500 response of [crear_sesion] carries the text of the exception
    that was caught, the same text that is logged. *)
Lemma crear_sesion_500_message req w resp w' :
  crear_sesion req w = (Ok resp, w') -> status_code resp = 500 ->
  exists e,
    dict_lookup (body resp) "message" = Some (PStr (str_exn e)) /\
    last (log w')
      = Some (LogRecord ERROR [Txt "Error creando sesión: "; Txt (str_exn e)]).
Proof.
  intros Hrun Hcode.
  destruct (crear_sesion_cases req w)
    as [(data & _ & _ & Heq) | [(e & Heq) | (d & _ & _ & Heq)]];
    rewrite Heq in Hrun; injection Hrun as <- <-; try discriminate Hcode.
  exists e. split; [reflexivity|]. simpl. apply last_snoc.
Qed.

(** C2: the body [[1]] makes [data.get] raise inside the handler; the 500
    response then carries the text of that exception in its message, the
    text that is logged, and not the fixed message of the 500 handler. *)
Theorem crear_sesion_fault_detail_in_body :
  exists resp w',
    crear_sesion (sample_request (Ok payload_array)) sample_world
      = (Ok resp, w') /\
    status_code resp = 500 /\
    dict_lookup (body resp) "message"
      = Some (PStr "'list' object has no attribute 'get'") /\
    last (log w')
      = Some (LogRecord ERROR
                [Txt "Error creando sesión: ";
                 Txt "'list' object has no attribute 'get'"]) /\
    dict_lookup (body resp) "message"
      <> Some (PStr "An unexpected error occurred. Please try again later.").
Proof.
  eexists _, _.
  split.
  { apply (crear_sesion_not_dict _ payload_array);
      [reflexivity | reflexivity | intros d; discriminate]. }
  split; [reflexivity|]. split; [reflexivity|].
  split; [reflexivity|]. simpl. discriminate.
Qed.

(** C3: the 400 response of [crear_sesion] has the field error only, and its
    500 response has error and message but no timestamp. *)
Theorem crear_sesion_error_bodies_lack_fields :
  (exists resp,
     fst (crear_sesion (sample_request (Ok (PDict []))) sample_world)
       = Ok resp /\
     status_code resp = 400 /\
     dict_lookup (body resp) "error" = Some (PStr "Datos requeridos") /\
     dict_lookup (body resp) "message" = None /\
     dict_lookup (body resp) "timestamp" = None) /\
  (exists resp,
     fst (crear_sesion (sample_request (Ok payload_array)) sample_world)
       = Ok resp /\
     status_code resp = 500 /\
     dict_lookup (body resp) "error"
       = Some (PStr "Error interno del servidor") /\
     dict_lookup (body resp) "message"
       = Some (PStr "'list' object has no attribute 'get'") /\
     dict_lookup (body resp) "timestamp" = None).
Proof. split; eexists; repeat split. Qed.

(** C4: a body that is not valid JSON makes [get_json] raise BadRequest; the
    handler catches it and answers 500, where the 400 handler would have
    answered 400. *)
Theorem crear_sesion_malformed_body_gets_500 :
  fst (crear_sesion (sample_request (Raise malformed_body)) sample_world)
    = Ok {| body := [("error", PStr "Error interno del servidor");
                     ("message",
                      PStr "400 Bad Request: The browser (or proxy) sent a request that this server could not understand.")];
            status_code := 500 |} /\
  fst (bad_request malformed_body sample_world)
    = Ok {| body := [("error", PStr "Bad Request");
                     ("message",
                      PStr "The request data is malformed or invalid");
                     ("timestamp", PStr "2024-05-01T12:00:00.000001")];
            status_code := 400 |}.
Proof. split; vm_compute; reflexivity. Qed.

(** ** Further properties of the handlers *)

(** X1: [ping] answers 200 with status "ok" and the current clock reading in
    every state, and the answer is the same in two states whose clocks read
    the same, whatever their registries, logs and random sources; it leaves
    both dictionaries as they were. *)
Theorem ping_answers_whatever_the_state w1 w2 :
  clock w1 (ticks w1) = clock w2 (ticks w2) ->
  fst (ping w1) = fst (ping w2) /\
  (exists resp,
     fst (ping w1) = Ok resp /\ status_code resp = 200 /\
     dict_lookup (body resp) "status" = Some (PStr "ok") /\
     dict_lookup (body resp) "timestamp" = Some (PStr (clock w1 (ticks w1)))) /\
  active_sessions (snd (ping w1)) = active_sessions w1 /\
  pending_validations (snd (ping w1)) = pending_validations w1.
Proof.
  intros Hclock. split; [|split].
  - unfold ping, Py.bind. simpl. rewrite Hclock. reflexivity.
  - eexists. repeat split.
  - apply read_only_ping.
Qed.

Lemma ping_answers_whatever_the_state_witness :
  clock sample_world (ticks sample_world)
    = clock sample_world_alike (ticks sample_world_alike) /\
  active_sessions sample_world <> active_sessions sample_world_alike /\
  fst (ping sample_world) = fst (ping sample_world_alike).
Proof.
  split; [reflexivity|]. split.
  - intros Heq.
    assert (H : size (active_sessions sample_world)
                = size (active_sessions sample_world_alike))
      by (rewrite Heq; reflexivity).
    vm_compute in H. discriminate H.
  - apply (ping_answers_whatever_the_state sample_world sample_world_alike).
    reflexivity.
Defined.

(** X2: the three error handlers answer 400, 404 and 500 with the fields
    error, message and timestamp, and the answer does not depend on the
    error they are given: its text goes to the log only. *)
Theorem error_handlers_hide_the_error req e1 e2 w :
  fst (bad_request e1 w) = fst (bad_request e2 w) /\
  fst (not_found req e1 w) = fst (not_found req e2 w) /\
  fst (internal_error e1 w) = fst (internal_error e2 w) /\
  (exists r400 r404 r500,
     fst (bad_request e1 w) = Ok r400 /\ status_code r400 = 400 /\
     fst (not_found req e1 w) = Ok r404 /\ status_code r404 = 404 /\
     fst (internal_error e1 w) = Ok r500 /\ status_code r500 = 500 /\
     Forall (fun r =>
               is_Some (dict_lookup (body r) "error") /\
               is_Some (dict_lookup (body r) "message") /\
               dict_lookup (body r) "timestamp"
                 = Some (PStr (clock w (ticks w))))
            [r400; r404; r500]) /\
  last (log (snd (bad_request e1 w)))
    = Some (LogRecord WARNING [Txt "Bad request: "; Txt (str_exn e1)]) /\
  last (log (snd (internal_error e1 w)))
    = Some (LogRecord ERROR
              [Txt "Internal server error: "; Txt (str_exn e1)]).
Proof.
  split; [reflexivity|]. split; [reflexivity|]. split; [reflexivity|].
  split.
  - eexists _, _, _. repeat split; simpl; eauto.
    repeat constructor; simpl; eauto.
  - split; simpl; apply last_snoc.
Qed.

(** What [exec] does to the registry, and which operation did it. *)
Lemma exec_sessions_by_create app op w :
  active_sessions (exec app op w) = active_sessions w \/
  exists req d,
    op = OpCrearSesion req /\ get_json req = Ok (PDict d) /\ d <> [] /\
    active_sessions (exec app op w)
      = <[next_session_id w := new_session d w]> (active_sessions w).
Proof.
  destruct op; cbn [exec];
    try (left; first
           [ apply read_only_ping | apply read_only_status | reflexivity
           | apply read_only_bad_request | apply read_only_not_found
           | apply read_only_internal_error | apply read_only_log_request_info
           | apply read_only_log_response_info ]).
  destruct (crear_sesion_cases req w)
    as [(data & _ & _ & ->) | [(e & ->) | (d & Hjson & Hne & ->)]];
    [left; reflexivity | left; reflexivity |].
  right. exists req, d. auto.
Qed.

(** X3: [crear_sesion] never lets an exception out: for every request and
    state it returns a response, whose code is 201 exactly when the payload
    is a non-empty dict, 400 exactly when the payload is falsy, and 500
    exactly when [get_json] raised or the payload is truthy but not a
    dict. *)
Theorem crear_sesion_always_answers req w :
  exists resp w',
    crear_sesion req w = (Ok resp, w') /\
    (status_code resp = 201 <->
     exists d, get_json req = Ok (PDict d) /\ d <> []) /\
    (status_code resp = 400 <->
     exists data, get_json req = Ok data /\ truthy data = false) /\
    (status_code resp = 500 <->
     (exists e, get_json req = Raise e) \/
     (exists data, get_json req = Ok data /\ truthy data = true /\
                   forall d, data <> PDict d)).
Proof.
  destruct (get_json req) as [data|e] eqn:Hjson.
  - destruct (truthy data) eqn:Htruthy.
    + assert (Hdict : (exists d, data = PDict d /\ d <> []) \/
                      (forall d, data <> PDict d)).
      { destruct data as [| | | | | |d|]; try (right; congruence).
        left. exists d. split; [reflexivity|].
        intros ->. discriminate Htruthy. }
      destruct Hdict as [(d & -> & Hne) | Hnot].
      * eexists _, _.
        split; [exact (crear_sesion_dict req d w Hjson Hne)|].
        simpl. split; [|split].
        -- split; [eauto|reflexivity].
        -- split; [discriminate|]. intros (data & [= <-] & Hf). congruence.
        -- split; [discriminate|].
           intros [(e & He) | (data & [= <-] & _ & Hnot)];
             [discriminate | exfalso; eapply Hnot; reflexivity].
      * eexists _, _.
        split; [exact (crear_sesion_not_dict req data w Hjson Htruthy Hnot)|].
        simpl. split; [|split].
        -- split; [discriminate|].
           intros (d & [= ->] & _). exfalso. eapply Hnot. reflexivity.
        -- split; [discriminate|]. intros (d & [= <-] & Hf). congruence.
        -- split; [eauto 6|reflexivity].
    + eexists _, _.
      split; [exact (crear_sesion_falsy req data w Hjson Htruthy)|].
      simpl. split; [|split].
      * split; [discriminate|].
        intros (d & [= ->] & Hne). destruct d; [congruence|discriminate].
      * split; [eauto|reflexivity].
      * split; [discriminate|].
        intros [(e & He) | (d & [= <-] & Ht & _)]; congruence.
  - eexists _, _.
    split; [exact (crear_sesion_get_json_raises req e w Hjson)|].
    simpl. split; [|split].
    + split; [discriminate|]. intros (d & Hd & _). discriminate.
    + split; [discriminate|]. intros (d & Hd & _). discriminate.
    + split; [eauto|reflexivity].
Qed.

(** X4: an operation changes the registry only if it is a [crear_sesion]
    whose payload is a non-empty dict, and then only under the identifier
    that call draws: every other key holds what it held. *)
Theorem registry_changes_only_by_create app op w :
  (forall k, k <> next_session_id w ->
             active_sessions (exec app op w) !! k = active_sessions w !! k) /\
  (active_sessions (exec app op w) <> active_sessions w ->
   exists req d,
     op = OpCrearSesion req /\ get_json req = Ok (PDict d) /\ d <> []).
Proof.
  destruct (exec_sessions_by_create app op w)
    as [Heq | (req & d & Hop & Hjson & Hne & Heq)]; rewrite Heq.
  - split; [reflexivity|]. intros Hdiff. congruence.
  - split.
    + intros k Hk. apply lookup_insert_ne. congruence.
    + eauto.
Qed.

(** X5: no operation makes the registry smaller, and none makes it grow by
    more than one entry. *)
Theorem count_grows_by_at_most_one app op w :
  (count w <= count (exec app op w))%nat /\
  (count (exec app op w) <= S (count w))%nat.
Proof.
  unfold count.
  destruct (exec_sessions_by_create app op w)
    as [Heq | (req & d & _ & _ & _ & Heq)]; rewrite Heq.
  - lia.
  - rewrite map_size_insert.
    destruct (active_sessions w !! next_session_id w);
      unfold Datatypes.id; lia.
Qed.

(** *** The log *)

Lemma logs_silent {A} (m : Py.M A) :
  (forall w, log (snd (m w)) = log w) -> logs_at_most 0 m.
Proof.
  intros Hm w. exists []. rewrite app_nil_r. split; [apply Hm | reflexivity].
Qed.

Lemma logs_bind {A B} n1 n2 (m : Py.M A) (k : A -> Py.M B) :
  logs_at_most n1 m -> (forall a, logs_at_most n2 (k a)) ->
  logs_at_most (n1 + n2) (Py.bind m k).
Proof.
  intros Hm Hk w. unfold Py.bind.
  destruct (Hm w) as (l1 & Hl1 & Hlen1).
  destruct (m w) as [[a|e] w1]; simpl in *.
  - destruct (Hk a w1) as (l2 & Hl2 & Hlen2).
    exists (l1 ++ l2)%list. rewrite Hl2, Hl1, app_assoc, length_app.
    split; [reflexivity | lia].
  - exists l1. split; [exact Hl1 | lia].
Qed.

Lemma logs_logger l msg : logs_at_most 1 (logger l msg).
Proof. intros w. eexists. split; [reflexivity | simpl; lia]. Qed.

Lemma logs_now : logs_at_most 0 now_isoformat.
Proof. apply logs_silent. reflexivity. Qed.

Lemma logs_len_active : logs_at_most 0 len_active_sessions.
Proof. apply logs_silent. reflexivity. Qed.

Lemma logs_len_pending : logs_at_most 0 len_pending_validations.
Proof. apply logs_silent. reflexivity. Qed.

Lemma logs_total_seconds v : logs_at_most 0 (total_seconds_us v).
Proof. apply logs_silent. destruct v; reflexivity. Qed.

Lemma logs_floordiv v d : logs_at_most 0 (floordiv v d).
Proof. apply logs_silent. destruct v; reflexivity. Qed.

Lemma logs_jsonify d code : logs_at_most 0 (jsonify d code).
Proof.
  apply logs_silent. intros w. unfold jsonify.
  destruct (serializable (PDict d)); reflexivity.
Qed.

Lemma logs_status app : logs_at_most 1 (status app).
Proof.
  unfold status. cbv zeta.
  apply (logs_bind 1 0); [apply logs_logger | intros _].
  apply (logs_bind 0 0); [apply logs_len_active | intros n1].
  apply (logs_bind 0 0); [apply logs_len_pending | intros n2].
  apply (logs_bind 0 0); [apply logs_now | intros ts].
  apply (logs_bind 0 0); [apply logs_floordiv | intros mb].
  apply (logs_bind 0 0); [apply logs_total_seconds | intros us].
  apply logs_jsonify.
Qed.

Lemma logs_exec app op w :
  exists l : list log_record,
    log (exec app op w) = (log w ++ l)%list /\ (length l <= 1)%nat.
Proof.
  destruct op; cbn [exec].
  - eexists. split; [reflexivity | simpl; lia].
  - apply logs_status.
  - exists []. rewrite app_nil_r. split; [reflexivity | simpl; lia].
  - destruct (crear_sesion_cases req w)
      as [(data & _ & _ & ->) | [(e & ->) | (d & _ & _ & ->)]]; simpl.
    + exists []. rewrite app_nil_r. split; [reflexivity | simpl; lia].
    + eexists. split; [reflexivity | simpl; lia].
    + eexists. split; [reflexivity | simpl; lia].
  - eexists. split; [reflexivity | simpl; lia].
  - eexists. split; [reflexivity | simpl; lia].
  - eexists. split; [reflexivity | simpl; lia].
  - eexists. split; [reflexivity | simpl; lia].
  - eexists. split; [reflexivity | simpl; lia].
Qed.

(** X6: the log is append-only: every operation leaves the lines already
    logged in place and adds at most one; in particular the lines of a
    reachable state are never rewritten or dropped later. *)
Theorem log_is_append_only app op w :
  log w `prefix_of` log (exec app op w) /\
  (length (log (exec app op w)) <= S (length (log w)))%nat.
Proof.
  destruct (logs_exec app op w) as (l & -> & Hlen).
  split; [apply prefix_app_r; reflexivity|].
  rewrite length_app. lia.
Qed.

(** *** More on [status] *)

(** X7: [status] returns exactly for the well-typed configurations; for any
    other it raises: an AttributeError when the lifetime entry is not a
    timedelta, a TypeError when the lifetime is fine but a copied entry
    cannot be serialised. *)
Theorem status_returns_iff_well_typed fe loaded w :
  ((exists resp, fst (status (create_app fe loaded) w) = Ok resp) <->
   well_typed loaded = true) /\
  (forall v, loaded !! "SESSION_LIFETIME" = Some v ->
             (forall us, v <> PTimedelta us) ->
             fst (status (create_app fe loaded) w)
             = Raise (AttributeError
                        ("'" +:+ type_name v +:+
                         "' object has no attribute 'total_seconds'"))) /\
  (well_typed loaded = false ->
   (forall v, loaded !! "SESSION_LIFETIME" = Some v ->
              exists us, v = PTimedelta us) ->
   fst (status (create_app fe loaded) w)
   = Raise (TypeError "Object of type timedelta is not JSON serializable")).
Proof.
  split; [split|split].
  - intros [resp Hresp].
    destruct (well_typed loaded) eqn:Htyped; [reflexivity|]. exfalso.
    revert Hresp. unfold well_typed in Htyped.
    unfold status, Py.bind. config_lookups.
    destruct (loaded !! "SESSION_LIFETIME") as [[]|]; simpl;
      try discriminate;
      unfold jsonify; simpl;
      destruct (loaded !! "OPENAI_MODEL") as [model|];
      destruct (loaded !! "RATE_LIMIT_PER_MINUTE") as [rate|];
      simpl in *;
      repeat match goal with
      | H : context [serializable ?v] |- _ =>
          destruct (serializable v); simpl in H
      end;
      simpl; discriminate.
  - intros Htyped. rewrite (status_returns fe loaded w Htyped). eauto.
  - intros v Hv Hnot. exact (status_raises fe loaded w v Hv Hnot).
  - intros Htyped Hlife. unfold well_typed in Htyped.
    unfold status, Py.bind. config_lookups.
    destruct (loaded !! "SESSION_LIFETIME") as [v|] eqn:Hv.
    + destruct (Hlife v eq_refl) as [us ->]. simpl.
      unfold jsonify; simpl;
      destruct (loaded !! "OPENAI_MODEL") as [model|];
      destruct (loaded !! "RATE_LIMIT_PER_MINUTE") as [rate|];
      simpl in *;
      repeat match goal with
      | H : context [serializable ?v] |- _ =>
          destruct (serializable v); simpl in H
      end;
      simpl; reflexivity || discriminate.
    + simpl.
      unfold jsonify; simpl;
      destruct (loaded !! "OPENAI_MODEL") as [model|];
      destruct (loaded !! "RATE_LIMIT_PER_MINUTE") as [rate|];
      simpl in *;
      repeat match goal with
      | H : context [serializable ?v] |- _ =>
          destruct (serializable v); simpl in H
      end;
      simpl; reflexivity || discriminate.
Qed.

(** X8: the upload limit in the snapshot is 16 megabytes whatever the loaded
    configuration says about MAX_CONTENT_LENGTH: the module sets the entry
    itself after loading. *)
Theorem status_upload_limit_is_fixed fe loaded w resp w' :
  status (create_app fe loaded) w = (Ok resp, w') ->
  body_path (body resp) "config" "max_content_length_mb" = Some (PInt 16).
Proof.
  intros Hrun.
  destruct (status_inversion fe loaded w resp w' Hrun) as [-> _].
  reflexivity.
Qed.

(** X9: the snapshot reports the sizes of the two dictionaries: after a
    [crear_sesion] that stored a record under a new identifier, [status]
    reports one active session more. *)
Theorem status_counts_new_session fe loaded req d w :
  get_json req = Ok (PDict d) -> d <> [] ->
  active_sessions w !! next_session_id w = None ->
  well_typed loaded = true ->
  exists resp0 w0 resp1 w1,
    status (create_app fe loaded) w = (Ok resp0, w0) /\
    body_path (body resp0) "services" "sessions"
      = Some (PStr (pretty (count w) +:+ " active")) /\
    status (create_app fe loaded) (snd (crear_sesion req w)) = (Ok resp1, w1) /\
    body_path (body resp1) "services" "sessions"
      = Some (PStr (pretty (S (count w)) +:+ " active")).
Proof.
  intros Hjson Hne Hfresh Htyped.
  eexists _, _, _, _.
  split; [exact (status_returns fe loaded w Htyped)|].
  split; [reflexivity|].
  split; [exact (status_returns fe loaded _ Htyped)|].
  rewrite (crear_sesion_dict req d w Hjson Hne).
  unfold body_path, snapshot, count. simpl.
  rewrite (map_size_insert_None _ _ _ Hfresh). reflexivity.
Qed.

(** X10: nothing ever populates the pending-validation mapping: in every
    reachable state it is empty, and a snapshot taken there reports
    "0 pending". *)
Theorem pending_validations_stay_empty app w :
  reachable app w ->
  pending_validations w = ∅ /\
  forall fe loaded resp w',
    status (create_app fe loaded) w = (Ok resp, w') ->
    body_path (body resp) "services" "validations" = Some (PStr "0 pending").
Proof.
  intros Hreach.
  pose proof (reachable_pending_empty app w Hreach) as Hempty.
  split; [exact Hempty|].
  intros fe loaded resp w' Hrun.
  destruct (status_inversion fe loaded w resp w' Hrun) as [-> _].
  unfold body_path, snapshot. simpl. rewrite Hempty. reflexivity.
Qed.

Lemma status_upload_limit_is_fixed_witness :
  exists resp w',
    status (create_app None {["MAX_CONTENT_LENGTH" := PStr "1 GB"]})
           sample_world = (Ok resp, w') /\
    body_path (body resp) "config" "max_content_length_mb" = Some (PInt 16).
Proof.
  assert (Htyped : well_typed {["MAX_CONTENT_LENGTH" := PStr "1 GB"]} = true)
    by reflexivity.
  pose proof (status_returns None {["MAX_CONTENT_LENGTH" := PStr "1 GB"]}
                sample_world Htyped) as Hrun.
  eexists _, _. split; [exact Hrun|].
  exact (status_upload_limit_is_fixed _ _ _ _ _ Hrun).
Defined.

Lemma status_counts_new_session_witness :
  get_json (sample_request (Ok (PDict payload_u1))) = Ok (PDict payload_u1) /\
  payload_u1 <> [] /\
  active_sessions sample_world !! next_session_id sample_world = None /\
  well_typed sample_loaded = true /\
  exists resp0 w0 resp1 w1,
    status (create_app None sample_loaded) sample_world = (Ok resp0, w0) /\
    body_path (body resp0) "services" "sessions"
      = Some (PStr (pretty (count sample_world) +:+ " active")) /\
    status (create_app None sample_loaded)
           (snd (crear_sesion (sample_request (Ok (PDict payload_u1)))
                              sample_world))
      = (Ok resp1, w1) /\
    body_path (body resp1) "services" "sessions"
      = Some (PStr (pretty (S (count sample_world)) +:+ " active")).
Proof.
  assert (Hne : payload_u1 <> []) by discriminate.
  split; [reflexivity|]. split; [exact Hne|].
  split; [reflexivity|]. split; [reflexivity|].
  exact (status_counts_new_session None sample_loaded
           (sample_request (Ok (PDict payload_u1))) payload_u1 sample_world
           eq_refl Hne eq_refl eq_refl).
Defined.

Lemma pending_validations_stay_empty_witness :
  reachable sample_app sample_world_one /\
  pending_validations sample_world_one = ∅ /\
  forall fe loaded resp w',
    status (create_app fe loaded) sample_world_one = (Ok resp, w') ->
    body_path (body resp) "services" "validations" = Some (PStr "0 pending").
Proof.
  assert (Hreach : reachable sample_app sample_world_one).
  { apply reachable_exec. apply reachable_initial. }
  split; [exact Hreach|].
  exact (pending_validations_stay_empty sample_app sample_world_one Hreach).
Defined.

(** *** Identifiers and runs *)

Lemma substring_inside n : forall m s,
  (n + m <= String.length s)%nat ->
  String.length (substring n m s) = m /\
  (all_hex s = true -> all_hex (substring n m s) = true).
Proof.
  induction n as [|n IH]; intros m s Hlen.
  - apply substring_prefix. exact Hlen.
  - destruct s as [|c s]; simpl in Hlen; [lia|].
    destruct (IH m s) as [Hl Hh]; [lia|].
    simpl. split; [exact Hl|].
    intros [_ Hs]%andb_prop. auto.
Qed.

Lemma uuid_str_shaped u : is_uuid_shaped (uuid_str u).
Proof.
  unfold uuid_str, uuid_hex.
  destruct (hex_digits_spec 32 u "") as (h & -> & Hlen & Hhex).
  rewrite string_app_nil_r.
  destruct (substring_inside 0 8 h) as [L1 H1]; [lia|].
  destruct (substring_inside 8 4 h) as [L2 H2]; [lia|].
  destruct (substring_inside 12 4 h) as [L3 H3]; [lia|].
  destruct (substring_inside 16 4 h) as [L4 H4]; [lia|].
  destruct (substring_inside 20 12 h) as [L5 H5]; [lia|].
  eexists _, _, _, _, _. split; [reflexivity|]. split.
  - cbn [map]. rewrite L1, L2, L3, L4, L5. reflexivity.
  - cbn [forallb]. rewrite H1, H2, H3, H4, H5 by exact Hhex. reflexivity.
Qed.

(** X11: the session_id of every 201 response is UUID-shaped: 36
    characters, five groups of 8, 4, 4, 4 and 12 lowercase hexadecimal
    digits separated by dashes. *)
Theorem session_id_is_uuid_shaped req w resp w' :
  crear_sesion req w = (Ok resp, w') -> status_code resp = 201 ->
  exists sid,
    dict_lookup (body resp) "session_id" = Some (PStr sid) /\
    is_uuid_shaped sid /\
    String.length sid = 36%nat.
Proof.
  intros Hrun Hcode.
  destruct (crear_sesion_cases req w)
    as [(data & _ & _ & Heq) | [(e & Heq) | (d & _ & _ & Heq)]];
    rewrite Heq in Hrun; injection Hrun as <- <-; try discriminate Hcode.
  exists (next_session_id w). split; [reflexivity|].
  pose proof (uuid_str_shaped (uuid4_int (urandom w (S (draws w))))) as Hs.
  split; [exact Hs|].
  destruct Hs as (a & b & c & d' & e & Heq' & [= La Lb Lc Ld Le] & _).
  unfold next_session_id. rewrite Heq'.
  rewrite !string_length_app, La, Lb, Lc, Ld, Le. reflexivity.
Qed.

Lemma session_id_is_uuid_shaped_witness :
  exists resp w',
    crear_sesion (sample_request (Ok (PDict payload_u1))) sample_world
      = (Ok resp, w') /\
    status_code resp = 201 /\
    exists sid,
      dict_lookup (body resp) "session_id" = Some (PStr sid) /\
      is_uuid_shaped sid /\
      String.length sid = 36%nat.
Proof.
  assert (Hne : payload_u1 <> []) by discriminate.
  pose proof (crear_sesion_dict (sample_request (Ok (PDict payload_u1)))
                payload_u1 sample_world eq_refl Hne) as Hrun.
  eexists _, _. split; [exact Hrun|]. split; [reflexivity|].
  exact (session_id_is_uuid_shaped _ _ _ _ Hrun eq_refl).
Defined.

Lemma object_payload_dict req :
  object_payload req = true ->
  exists d, get_json req = Ok (PDict d) /\ d <> [].
Proof.
  unfold object_payload.
  destruct (get_json req) as [[| | | | | |[|kv d]|]|]; try discriminate.
  intros _. eexists. split; [reflexivity | discriminate].
Qed.

(** X12: calls of [crear_sesion] compose: a run of calls with non-empty
    dict payloads, each drawing an identifier that is not yet a key, adds
    exactly one entry per call. *)
Theorem crear_sesiones_count reqs : forall w,
  Forall (fun req => object_payload req = true) reqs ->
  all_fresh reqs w ->
  count (crear_sesiones reqs w) = (count w + length reqs)%nat.
Proof.
  induction reqs as [|req reqs IH]; intros w Hall Hfresh; simpl.
  - lia.
  - inversion Hall as [|? ? Hreq Hrest]; subst.
    destruct Hfresh as [Hnew Hfresh].
    destruct (object_payload_dict req Hreq) as (d & Hjson & Hne).
    rewrite (IH _ Hrest Hfresh).
    rewrite (crear_sesion_dict req d w Hjson Hne).
    unfold count. simpl.
    rewrite (map_size_insert_None _ _ _ Hnew). lia.
Qed.

Lemma crear_sesiones_count_witness :
  Forall (fun req => object_payload req = true) sample_requests /\
  all_fresh sample_requests sample_world /\
  count (crear_sesiones sample_requests sample_world)
    = (count sample_world + length sample_requests)%nat.
Proof.
  assert (Hall : Forall (fun req => object_payload req = true)
                        sample_requests).
  { repeat constructor. }
  assert (Hfresh : all_fresh sample_requests sample_world).
  { vm_compute. repeat split. }
  split; [exact Hall|]. split; [exact Hfresh|].
  apply (crear_sesiones_count sample_requests sample_world Hall Hfresh).
Defined.

Lemma stores_under_create req d w :
  get_json req = Ok (PDict d) -> d <> [] ->
  stores_under (OpCrearSesion req) w = Some (next_session_id w).
Proof.
  intros Hjson Hne. unfold stores_under, object_payload. rewrite Hjson.
  destruct d; [congruence | reflexivity].
Qed.

(** X13: a stored record is never updated, removed or expired: whatever
    operations run afterwards, the key holds the very same record, as long
    as no later [crear_sesion] draws the same identifier again. *)
Theorem stored_record_is_kept app ops : forall w k r,
  active_sessions w !! k = Some r ->
  never_draws app k ops w ->
  active_sessions (run_ops app ops w) !! k = Some r.
Proof.
  induction ops as [|op ops IH]; intros w k r Hk Hnever; simpl.
  - exact Hk.
  - destruct Hnever as [Hne Hnever].
    apply IH; [|exact Hnever].
    destruct (exec_sessions_by_create app op w)
      as [-> | (req & d & -> & Hjson & Hd & ->)]; [exact Hk|].
    rewrite (stores_under_create req d w Hjson Hd) in Hne.
    rewrite lookup_insert_ne by congruence. exact Hk.
Qed.

Lemma stored_record_is_kept_witness :
  exists r,
    active_sessions sample_world_one !! sample_session_id = Some r /\
    never_draws sample_app sample_session_id sample_ops sample_world_one /\
    never_draws sample_app sample_session_id [OpPing] sample_world_one /\
    active_sessions (run_ops sample_app sample_ops sample_world_one)
      !! sample_session_id = Some r /\
    active_sessions (run_ops sample_app [OpPing] sample_world_one)
      !! sample_session_id = Some r.
Proof.
  eexists.
  assert (Hk : active_sessions sample_world_one !! sample_session_id
               = Some (new_session payload_u1 sample_world)).
  { vm_compute. reflexivity. }
  assert (Hnever : never_draws sample_app sample_session_id sample_ops
                               sample_world_one).
  { vm_compute. repeat (split; [intros H; discriminate H|]). exact I. }
  assert (Hping : never_draws sample_app sample_session_id [OpPing]
                              sample_world_one).
  { vm_compute. split; [intros H; discriminate H | exact I]. }
  split; [exact Hk|]. split; [exact Hnever|]. split; [exact Hping|].
  split.
  - apply (stored_record_is_kept sample_app sample_ops sample_world_one
             sample_session_id _ Hk Hnever).
  - apply (stored_record_is_kept sample_app [OpPing] sample_world_one
             sample_session_id _ Hk Hping).
Defined.

(** X15: [crear_sesion] reads the three fields user_id, device_type and
    app_version and nothing else of the payload: two non-empty dict payloads
    that agree on these three keys give the same response and the same
    state, whatever else they hold. *)
Theorem crear_sesion_reads_three_fields req1 req2 d1 d2 w :
  get_json req1 = Ok (PDict d1) -> d1 <> [] ->
  get_json req2 = Ok (PDict d2) -> d2 <> [] ->
  dict_lookup d1 "user_id" = dict_lookup d2 "user_id" ->
  dict_lookup d1 "device_type" = dict_lookup d2 "device_type" ->
  dict_lookup d1 "app_version" = dict_lookup d2 "app_version" ->
  crear_sesion req1 w = crear_sesion req2 w.
Proof.
  intros Hjson1 Hne1 Hjson2 Hne2 Huser Hdevice Hversion.
  rewrite (crear_sesion_dict req1 d1 w Hjson1 Hne1).
  rewrite (crear_sesion_dict req2 d2 w Hjson2 Hne2).
  unfold world_after_create, new_session, dict_get.
  rewrite Huser, Hdevice, Hversion. reflexivity.
Qed.

Lemma crear_sesion_reads_three_fields_witness :
  payload_u1 <> [] /\
  (("admin", PBool true) :: payload_u1) <> [] /\
  dict_lookup payload_u1 "user_id"
    = dict_lookup (("admin", PBool true) :: payload_u1) "user_id" /\
  dict_lookup payload_u1 "device_type"
    = dict_lookup (("admin", PBool true) :: payload_u1) "device_type" /\
  dict_lookup payload_u1 "app_version"
    = dict_lookup (("admin", PBool true) :: payload_u1) "app_version" /\
  crear_sesion (sample_request (Ok (PDict payload_u1))) sample_world
    = crear_sesion
        (sample_request (Ok (PDict (("admin", PBool true) :: payload_u1))))
        sample_world.
Proof.
  assert (H1 : payload_u1 <> []) by discriminate.
  assert (H2 : (("admin", PBool true) :: payload_u1) <> []) by discriminate.
  split; [exact H1|]. split; [exact H2|].
  split; [reflexivity|]. split; [reflexivity|]. split; [reflexivity|].
  exact (crear_sesion_reads_three_fields
           (sample_request (Ok (PDict payload_u1)))
           (sample_request (Ok (PDict (("admin", PBool true) :: payload_u1))))
           payload_u1 (("admin", PBool true) :: payload_u1) sample_world
           eq_refl H1 eq_refl H2 eq_refl eq_refl eq_refl).
Defined.

(** *** The start-up options *)

Ltac ascii_cases c :=
  destruct c as [[] [] [] [] [] [] [] []]; vm_compute;
  (split;
   [ intros H; first [discriminate H | auto]
   | intros [H | H]; first [discriminate H | reflexivity] ]).

Lemma ascii_lower_t c : ascii_lower c = "t"%char <-> c = "t"%char \/ c = "T"%char.
Proof. ascii_cases c. Qed.

Lemma ascii_lower_r c : ascii_lower c = "r"%char <-> c = "r"%char \/ c = "R"%char.
Proof. ascii_cases c. Qed.

Lemma ascii_lower_u c : ascii_lower c = "u"%char <-> c = "u"%char \/ c = "U"%char.
Proof. ascii_cases c. Qed.

Lemma ascii_lower_e c : ascii_lower c = "e"%char <-> c = "e"%char \/ c = "E"%char.
Proof. ascii_cases c. Qed.

Lemma str_lower_true v :
  str_lower v = "true" <->
  exists c1 c2 c3 c4,
    v = String c1 (String c2 (String c3 (String c4 ""))) /\
    (c1 = "t" \/ c1 = "T")%char /\ (c2 = "r" \/ c2 = "R")%char /\
    (c3 = "u" \/ c3 = "U")%char /\ (c4 = "e" \/ c4 = "E")%char.
Proof.
  split.
  - destruct v as [|c1 [|c2 [|c3 [|c4 [|c5 v]]]]]; simpl; try discriminate.
    intros [= H1 H2 H3 H4].
    exists c1, c2, c3, c4. split; [reflexivity|].
    rewrite <- ascii_lower_t, <- ascii_lower_r, <- ascii_lower_u,
      <- ascii_lower_e. auto.
  - intros (c1 & c2 & c3 & c4 & -> & H1 & H2 & H3 & H4). simpl.
    apply ascii_lower_t in H1. apply ascii_lower_r in H2.
    apply ascii_lower_u in H3. apply ascii_lower_e in H4.
    rewrite H1, H2, H3, H4. reflexivity.
Qed.

(** X14: debug mode is on exactly when FLASK_DEBUG is set to the word
    "true" in any mix of capitals; an unset variable, and values such as
    "1" or "yes", leave it off.  The host falls back to 0.0.0.0 when HOST is
    unset. *)
Theorem debug_mode_needs_the_word_true environ :
  (debug_mode environ = true <->
   exists c1 c2 c3 c4,
     environ !! "FLASK_DEBUG"
       = Some (String c1 (String c2 (String c3 (String c4 "")))) /\
     (c1 = "t" \/ c1 = "T")%char /\ (c2 = "r" \/ c2 = "R")%char /\
     (c3 = "u" \/ c3 = "U")%char /\ (c4 = "e" \/ c4 = "E")%char) /\
  (environ !! "FLASK_DEBUG" = None -> debug_mode environ = false) /\
  (environ !! "FLASK_DEBUG" = Some "1" -> debug_mode environ = false) /\
  (environ !! "HOST" = None -> host environ = "0.0.0.0") /\
  (forall h, environ !! "HOST" = Some h -> host environ = h).
Proof.
  unfold debug_mode, host. split; [|split; [|split; [|split]]].
  - rewrite String.eqb_eq, str_lower_true.
    destruct (environ !! "FLASK_DEBUG") as [v|]; simpl.
    + split.
      * intros (c1 & c2 & c3 & c4 & -> & H). eauto 10.
      * intros (c1 & c2 & c3 & c4 & [= ->] & H). eauto 10.
    + split.
      * intros (c1 & c2 & c3 & c4 & H & _). discriminate H.
      * intros (c1 & c2 & c3 & c4 & H & _). discriminate H.
  - intros ->. reflexivity.
  - intros ->. reflexivity.
  - intros ->. reflexivity.
  - intros h ->. reflexivity.
Qed.

Example debug_mode_capitals : debug_mode sample_environ = true.
Proof. reflexivity. Qed.

(** ** Checks on concrete inputs *)

Example uuid_str_all_ones :
  uuid_str (uuid4_int (2 ^ 128 - 1)) = "ffffffff-ffff-4fff-bfff-ffffffffffff".
Proof. vm_compute. reflexivity. Qed.

Example uuid_str_zero :
  uuid_str (uuid4_int 0) = "00000000-0000-4000-8000-000000000000".
Proof. vm_compute. reflexivity. Qed.

Example next_placeholder_sample :
  next_placeholder sample_world = "user_01234567".
Proof. vm_compute. reflexivity. Qed.

Example truthy_values :
  map truthy [PNone; PDict []; PList []; PStr ""; PInt 0; PBool false;
              PFloat (S754_zero true); PFloat S754_nan; PInt 5; PStr "x";
              PList [PNone]; PDict [("k", PNone)]]
  = [false; false; false; false; false; false; false; true; true; true; true;
     true].
Proof. reflexivity. Qed.

Example status_sample_sessions :
  body_path (snapshot None ∅ sample_world_one) "services" "sessions"
  = Some (PStr "1 active").
Proof. vm_compute. reflexivity. Qed.

Example whole_hours_default :
  whole_hours (lifetime_us ∅) = PFloat (S754_finite false 4503599627370496 (-49)).
Proof. vm_compute. reflexivity. Qed.

Example whole_hours_rounded_seconds :
  whole_hours 17279999999999999 = PFloat (float_of_Z 4800000).
Proof. vm_compute. reflexivity. Qed.

Example whole_hours_just_below :
  whole_hours (8 * 3600 * 1000000 - 1) = PFloat (float_of_Z 7).
Proof. vm_compute. reflexivity. Qed.

Example whole_hours_negative :
  whole_hours (-1) = PFloat (S754_finite true 4503599627370496 (-52)).
Proof. vm_compute. reflexivity. Qed.

Example int_truediv_microsecond :
  int_truediv 1 (10 ^ 6) = S754_finite false 4722366482869645 (-72).
Proof. vm_compute. reflexivity. Qed.

Example sample_clock_readings :
  map sample_clock [0; 1; 8; 9]%nat
  = ["2024-05-01T12:00:00.000001"; "2024-05-01T12:00:00.000002";
     "2024-05-01T12:00:00.000009"; "2024-05-01T12:00:00.000001"].
Proof. vm_compute. reflexivity. Qed.
